(** * ddbstore: a gorilla/sessions store backed by DynamoDB

    A shallow embedding of [store.go] and [constants.go].  The Go methods of
    [*DdbStore] become functions in a small state-and-panic monad over a
    [World] that holds what the Go code reaches through pointers and
    through the operating system: the heap cells of [*sessions.Options], the
    wall clock, the system's random source, the DynamoDB backend, and the
    trace of the backend operations issued so far.

    The DynamoDB client, the securecookie codecs and the configuration loader
    are dependencies of the repository, not part of it: they are taken as an
    interface ([Deps]), and every statement about the store's own control
    flow is proved for an arbitrary implementation of that interface.  An
    in-memory table service ([MemDB]) with scripted faults gives a concrete
    implementation to run the store on. *)

From Stdlib Require Import ZArith Ascii String List Lia.
From stdpp Require Import base option gmap strings list fin_maps pretty.

Set Warnings "-register-all".

Local Open Scope string_scope.
Local Open Scope list_scope.
Local Open Scope Z_scope.

(** ** Errors and panics *)

(** Go [error] values.  [OperationError] stands for the wrappers of the AWS
    SDK (and [fmt.Errorf] with [%w]), whose [Unwrap] gives the inner error;
    [MultiError] is securecookie's list of codec errors, which does not
    unwrap. *)
Inductive error : Type :=
| ErrorString (msg : string)
| ResourceNotFoundException (msg : string)
| OperationError (operation : string) (inner : error)
| MultiError (errs : list error).

(** [errors.As(err, &temp)] with [temp : *types.ResourceNotFoundException]:
    walks the [Unwrap] chain. *)
Fixpoint errorsAsResourceNotFound (err : error) : bool :=
  match err with
  | ResourceNotFoundException _ => true
  | OperationError _ inner => errorsAsResourceNotFound inner
  | ErrorString _ | MultiError _ => false
  end.

(** Run-time panics the store can raise. *)
Inductive panic : Type :=
| NilDereference      (* invalid memory address or nil pointer dereference *)
| TypeAssertion.      (* interface conversion: x.(T) on another dynamic type *)

(** ** constants.go *)

Definition dynamodbUuidColumnName : string := "uuid".
Definition dynamodbExpirationColumnName : string := "expiration".
Definition dynamodbDataColumnName : string := "data".

(** [time.Duration] counts nanoseconds. *)
Definition Nanosecond : Z := 1.
Definition Second : Z := 1000000000 * Nanosecond.
Definition Minute : Z := 60 * Second.

Definition expiryTime : Z := 60 * Minute.

(** ** DynamoDB types *)

(** [types.AttributeValue]: a tagged union; the members are the dynamic
    types a Go type assertion can see. *)
Inductive AttributeValue : Type :=
| AttributeValueMemberS (Value : string)
| AttributeValueMemberN (Value : string)
| AttributeValueMemberB (Value : list Byte.byte)
| AttributeValueMemberBOOL (Value : bool)
| AttributeValueMemberNULL (Value : bool)
| AttributeValueMemberSS (Value : list string)
| AttributeValueMemberNS (Value : list string)
| AttributeValueMemberL (Value : list AttributeValue)
| AttributeValueMemberM (Value : gmap string AttributeValue).

Inductive ScalarAttributeType := ScalarAttributeTypeS | ScalarAttributeTypeN | ScalarAttributeTypeB.
Inductive KeyType := KeyTypeHash | KeyTypeRange.
Inductive BillingMode := BillingModeProvisioned | BillingModePayPerRequest.

Module AttributeDefinition.
Record t := mk { AttributeName : string; AttributeType : ScalarAttributeType }.
End AttributeDefinition.

Module KeySchemaElement.
Record t := mk { AttributeName : string; KeyType : KeyType }.
End KeySchemaElement.

Module TimeToLiveSpecification.
Record t := mk { Enabled : bool; AttributeName : string }.
End TimeToLiveSpecification.

Module GetItemInput.
Record t := mk { TableName : string; Key : gmap string AttributeValue }.
End GetItemInput.

(** A Go map is [nil] or a map: [Item = None] is the nil map DynamoDB
    answers with when no item has the key. *)
Module GetItemOutput.
Record t := mk { Item : option (gmap string AttributeValue) }.
End GetItemOutput.

Module PutItemInput.
Record t := mk { TableName : string; Item : gmap string AttributeValue }.
End PutItemInput.

Module DeleteItemInput.
Record t := mk { TableName : string; Key : gmap string AttributeValue }.
End DeleteItemInput.

Module DescribeTableInput.
Record t := mk { TableName : string }.
End DescribeTableInput.

Module CreateTableInput.
Record t := mk {
    TableName : string;
    AttributeDefinitions : list AttributeDefinition.t;
    KeySchema : list KeySchemaElement.t;
    BillingMode : BillingMode }.
End CreateTableInput.

Module UpdateTimeToLiveInput.
Record t := mk {
    TableName : string;
    TimeToLiveSpecification : TimeToLiveSpecification.t }.
End UpdateTimeToLiveInput.

(** What the store does to the outside world, in order: the DynamoDB
    operations it issues and the pauses it takes. *)
Inductive Event : Type :=
| EvGetItem (input : GetItemInput.t)
| EvPutItem (input : PutItemInput.t)
| EvDeleteItem (input : DeleteItemInput.t)
| EvDescribeTable (input : DescribeTableInput.t)
| EvCreateTable (input : CreateTableInput.t)
| EvUpdateTimeToLive (input : UpdateTimeToLiveInput.t)
| EvSleep (d : Z).

(** ** net/http and gorilla/sessions *)

(** Addresses of [sessions.Options] cells; a pointer [*sessions.Options]
    is nil ([None]) or an address. *)
Definition loc : Type := positive.
Definition ptr : Type := option loc.

Module sessions.

(** [sessions.Options]. *)
Record Options := mkOptions {
  Path : string;
  Domain : string;
  MaxAge : Z;
  Secure : bool;
  HttpOnly : bool;
  SameSite : Z }.

Definition setMaxAge (o : Options) (age : Z) : Options :=
  {| Path := Path o; Domain := Domain o; MaxAge := age;
     Secure := Secure o; HttpOnly := HttpOnly o; SameSite := SameSite o |}.

End sessions.

(** [sessions.Session].  [Values] is Go's [map[interface{}]interface{}],
    here with strings for keys and values; [Options] is a pointer.  The
    back-pointer to the store is left out: the store is an argument of
    every function below. *)
Module Session.
Record t := mk {
  ID : string;
  Values : gmap string string;
  Options : ptr;
  IsNew : bool;
  name : string }.

Definition setID (s : t) (id : string) : t :=
  mk id (Values s) (Options s) (IsNew s) (name s).
Definition setValues (s : t) (v : gmap string string) : t :=
  mk (ID s) v (Options s) (IsNew s) (name s).
Definition setOptions (s : t) (p : ptr) : t :=
  mk (ID s) (Values s) p (IsNew s) (name s).
Definition setIsNew (s : t) (b : bool) : t :=
  mk (ID s) (Values s) (Options s) b (name s).
End Session.

(** [sessions.NewSession(store, name)]: an empty values map, and the zero
    value everywhere else. *)
Definition NewSession (name : string) : Session.t :=
  Session.mk "" ∅ None false name.

(** [http.Cookie].  [Expires] is a time in nanoseconds since the epoch,
    or the zero time ([None]), which net/http does not write. *)
Module Cookie.
Record t := mk {
  Name : string;
  Value : string;
  Path : string;
  Domain : string;
  Expires : option Z;
  MaxAge : Z;
  Secure : bool;
  HttpOnly : bool;
  SameSite : Z }.

Definition setExpires (c : t) (e : option Z) : t :=
  mk (Name c) (Value c) (Path c) (Domain c) e (MaxAge c) (Secure c) (HttpOnly c)
     (SameSite c).

(** The [Max-Age] attribute net/http writes for the cookie, as the
    documentation of [http.Cookie] has it: [MaxAge = 0] means no attribute,
    [MaxAge < 0] means delete the cookie now ([Max-Age: 0]), [MaxAge > 0]
    is written as it is. *)
Definition MaxAgeAttribute (c : t) : option Z :=
  if decide (0 < MaxAge c) then Some (MaxAge c)
  else if decide (MaxAge c < 0) then Some 0
  else None.

(** A client at time [now] drops the cookie: it is told to delete it now,
    or its expiry time has passed. *)
Definition expiredAt (now : Z) (c : t) : bool :=
  bool_decide (MaxAgeAttribute c = Some 0) ||
  match Expires c with
  | Some t => bool_decide (t ≤ now)
  | None => false
  end.
End Cookie.

(** Arithmetic on [int64] (and on [time.Duration]) wraps around. *)
Definition wrap64 (z : Z) : Z := (z + 2 ^ 63) `mod` 2 ^ 64 - 2 ^ 63.

(** [newCookieFromOptions(name, value, options)] of gorilla/sessions: the
    options are copied, [Expires] is left at the zero time. *)
Definition newCookieFromOptions (name value : string) (options : sessions.Options)
    : Cookie.t :=
  Cookie.mk name value (sessions.Path options) (sessions.Domain options) None
    (sessions.MaxAge options) (sessions.Secure options)
    (sessions.HttpOnly options) (sessions.SameSite options).

(** [sessions.NewCookie(name, value, options)].  With a positive max-age it
    reads the clock ([now]) and sets [Expires] to
    [now + time.Duration(MaxAge) * time.Second]; with a negative one it
    sets [Expires] to [time.Unix(1, 0)]; with max-age zero it sets
    nothing. *)
Definition NewCookie (now : Z) (name value : string) (options : sessions.Options)
    : Cookie.t :=
  let cookie := newCookieFromOptions name value options in
  if decide (0 < sessions.MaxAge options) then
    let d := wrap64 (sessions.MaxAge options * Second) in
    Cookie.setExpires cookie (Some (now + d))
  else if decide (sessions.MaxAge options < 0) then
    Cookie.setExpires cookie (Some (1 * Second))
  else cookie.

(** [*http.Request]: the cookies of its [Cookie] header, in order. *)
Module Request.
Record t := mk { Cookies : list (string * string) }.
End Request.

Definition ErrNoCookie : error := ErrorString "http: named cookie not present".

(** [r.Cookie(name)]: the first cookie of that name. *)
Fixpoint lookupCookie (cs : list (string * string)) (name : string) : error + string :=
  match cs with
  | [] => inl ErrNoCookie
  | (n, v) :: rest => if decide (n = name) then inr v else lookupCookie rest name
  end.

Definition Request_Cookie (r : Request.t) (name : string) : error + string :=
  lookupCookie (Request.Cookies r) name.

(** [http.ResponseWriter]: the [Set-Cookie] headers added so far. *)
Definition ResponseWriter : Type := list Cookie.t.

(** [http.SetCookie(w, cookie)]. *)
Definition SetCookie (w : ResponseWriter) (c : Cookie.t) : ResponseWriter := w ++ [c].

(** ** gorilla/securecookie *)

(** What a codec is asked to encode: the session identifier (a string) or
    the values map. *)
Inductive Payload : Type :=
| PString (s : string)
| PValues (v : gmap string string).

(** A [securecookie.Codec].  The transformation itself is a provided
    capability: [encode] and the two [decode]s (one per destination type)
    are arbitrary functions of the codec's limits, the time, the cookie
    name and the input.  [secure] tells whether the dynamic type is
    [*securecookie.SecureCookie], the only one the setters reach. *)
Module Codec.
Record t := mk {
  secure : bool;
  maxAge : Z;
  maxLength : Z;
  encode : Z -> Z -> Z -> string -> Payload -> error + string;
  decodeString : Z -> Z -> Z -> string -> string -> error + string;
  decodeValues : Z -> Z -> Z -> string -> string -> error + gmap string string }.

Definition Encode (c : t) (now : Z) (name : string) (v : Payload) : error + string :=
  encode c (maxAge c) (maxLength c) now name v.
Definition DecodeString (c : t) (now : Z) (name value : string) : error + string :=
  decodeString c (maxAge c) (maxLength c) now name value.
Definition DecodeValues (c : t) (now : Z) (name value : string) : error + gmap string string :=
  decodeValues c (maxAge c) (maxLength c) now name value.

(** [sc.MaxAge(age)] and [sc.MaxLength(l)] on a [*SecureCookie]. *)
Definition MaxAge (c : t) (age : Z) : t :=
  mk (secure c) age (maxLength c) (encode c) (decodeString c) (decodeValues c).
Definition MaxLength (c : t) (l : Z) : t :=
  mk (secure c) (maxAge c) l (encode c) (decodeString c) (decodeValues c).
End Codec.

Definition errNoCodecs : error := ErrorString "securecookie: no codecs provided".

(** The loop of [securecookie.EncodeMulti] and [DecodeMulti]: the first
    codec that succeeds wins, otherwise the errors are collected. *)
Fixpoint firstSuccess {A : Type} (f : Codec.t -> error + A) (codecs : list Codec.t)
    (errs : list error) : error + A :=
  match codecs with
  | [] => inl (MultiError errs)
  | codec :: rest =>
      match f codec with
      | inr a => inr a
      | inl err => firstSuccess f rest (errs ++ [err])
      end
  end.

Definition multi {A : Type} (f : Codec.t -> error + A) (codecs : list Codec.t) : error + A :=
  match codecs with
  | [] => inl errNoCodecs
  | _ => firstSuccess f codecs []
  end.

Definition EncodeMulti (now : Z) (name : string) (value : Payload)
    (codecs : list Codec.t) : error + string :=
  multi (fun codec => Codec.Encode codec now name value) codecs.

(** [DecodeMulti(name, value, &dst, codecs...)] for [dst] a string. *)
Definition DecodeMultiString (now : Z) (name value : string)
    (codecs : list Codec.t) : error + string :=
  multi (fun codec => Codec.DecodeString codec now name value) codecs.

(** [DecodeMulti(name, value, &dst, codecs...)] for [dst] a values map. *)
Definition DecodeMultiValues (now : Z) (name value : string)
    (codecs : list Codec.t) : error + gmap string string :=
  multi (fun codec => Codec.DecodeValues codec now name value) codecs.

(** ** encoding/base32 *)

Definition encodeStd : list Ascii.ascii :=
  list_ascii_of_string "ABCDEFGHIJKLMNOPQRSTUVWXYZ234567".

Definition byteBits (b : Byte.byte) : list bool :=
  map (N.testbit (Byte.to_N b)) [7; 6; 5; 4; 3; 2; 1; 0]%N.

Definition quantum (b4 b3 b2 b1 b0 : bool) : Ascii.ascii :=
  nth (Nat.b2n b4 * 16 + Nat.b2n b3 * 8 + Nat.b2n b2 * 4 + Nat.b2n b1 * 2 + Nat.b2n b0)%nat
      encodeStd Ascii.zero.

(** Five bits per character; the last group is filled with zero bits. *)
Fixpoint quanta (bits : list bool) : list Ascii.ascii :=
  match bits with
  | [] => []
  | b4 :: b3 :: b2 :: b1 :: b0 :: rest => quantum b4 b3 b2 b1 b0 :: quanta rest
  | [b4; b3; b2; b1] => [quantum b4 b3 b2 b1 false]
  | [b4; b3; b2] => [quantum b4 b3 b2 false false]
  | [b4; b3] => [quantum b4 b3 false false false]
  | [b4] => [quantum b4 false false false false]
  end.

(** [base32.StdEncoding.WithPadding(base32.NoPadding).EncodeToString]. *)
Definition base32RawStdEncoding (src : list Byte.byte) : string :=
  string_of_list_ascii (quanta (concat (map byteBits src))).



(** ** The world and the monad *)

(** Everything outside the Go values that are passed around: the heap of
    options cells, the clock (nanoseconds since the epoch), the answers of
    the system's random source still to come, the state of the DynamoDB
    service, and the trace of what the store has asked of it. *)
Record World (B : Type) := mkWorld {
  heap : gmap loc sessions.Options;
  clock : Z;
  entropy : list (list Byte.byte);
  backend : B;
  trace : list Event }.
Arguments mkWorld {B}.
Arguments heap {B}.
Arguments clock {B}.
Arguments entropy {B}.
Arguments backend {B}.
Arguments trace {B}.

(** A Go call returns, or panics. *)
Inductive result (B A : Type) : Type :=
| Done (a : A) (w : World B)
| Panicked (p : panic) (w : World B).
Arguments Done {B A}.
Arguments Panicked {B A}.

Definition M (B A : Type) : Type := World B -> result B A.

#[global] Instance M_ret {B} : MRet (M B) :=
  fun A a w => Done a w.

#[global] Instance M_bind {B} : MBind (M B) :=
  fun A A' k c w =>
    match c w with
    | Done a w' => k a w'
    | Panicked p w' => Panicked p w'
    end.

Definition raise {B A} (p : panic) : M B A := fun w => Panicked p w.

(** [time.Now()], as nanoseconds since the epoch.  Times are unbounded
    integers: the range of [time.Time] is far from any clock. *)
Definition Now {B} : M B Z := fun w => Done (clock w) w.

(** [t.Unix()]: whole seconds since the epoch, rounded down. *)
Definition Unix (t : Z) : Z := t `div` Second.

(** [time.Sleep(d)]. *)
Definition Sleep {B} (d : Z) : M B unit := fun w =>
  Done tt (mkWorld (heap w) (clock w + d) (entropy w) (backend w)
                   (trace w ++ [EvSleep d])).

(** [securecookie.GenerateRandomKey(length)]: the next answer of the random
    source when it filled the buffer, nil when it failed. *)
Definition GenerateRandomKey {B} (length : nat) : M B (list Byte.byte) := fun w =>
  match entropy w with
  | [] => Done [] w
  | key :: rest =>
      Done (if decide (List.length key = length) then key else [])
           (mkWorld (heap w) (clock w) rest (backend w) (trace w))
  end.

(** [*p] *)
Definition deref {B} (p : ptr) : M B sessions.Options := fun w =>
  match p with
  | None => Panicked NilDereference w
  | Some l =>
      match heap w !! l with
      | Some o => Done o w
      | None => Panicked NilDereference w
      end
  end.

(** [&v] for a new variable [v]: a cell no pointer refers to yet. *)
Definition alloc {B} (o : sessions.Options) : M B ptr := fun w =>
  let l := fresh (dom (heap w)) in
  Done (Some l) (mkWorld (<[l := o]> (heap w)) (clock w) (entropy w) (backend w) (trace w)).

(** [*p = o] *)
Definition assign {B} (p : ptr) (o : sessions.Options) : M B unit := fun w =>
  match p with
  | None => Panicked NilDereference w
  | Some l =>
      match heap w !! l with
      | Some _ =>
          Done tt (mkWorld (<[l := o]> (heap w)) (clock w) (entropy w) (backend w) (trace w))
      | None => Panicked NilDereference w
      end
  end.

(** ** The dependencies *)

(** The DynamoDB client of the AWS SDK over a service state [B], the
    configuration loader and the codec constructor.  An SDK operation
    returns an output pointer and an error; only [GetItem]'s output is ever
    looked at by the store. *)
Class Deps (B : Type) := {
  NewConfig : string -> option error;
  CodecsFromPairs : list (list Byte.byte) -> list Codec.t;
  GetItem : GetItemInput.t -> B -> option GetItemOutput.t * option error * B;
  PutItem : PutItemInput.t -> B -> option error * B;
  DeleteItem : DeleteItemInput.t -> B -> option error * B;
  DescribeTable : DescribeTableInput.t -> B -> option error * B;
  CreateTable : CreateTableInput.t -> B -> option error * B;
  UpdateTimeToLive : UpdateTimeToLiveInput.t -> B -> option error * B }.

(** One client call: the service moves on and the call is recorded. *)
Definition invoke {B A} (op : B -> A * B) (ev : Event) : M B A := fun w =>
  let '(a, b) := op (backend w) in
  Done a (mkWorld (heap w) (clock w) (entropy w) b (trace w ++ [ev])).

(** ** store.go *)

(** [DdbStore].  The [config] and [client] fields are the [Deps] instance
    and the service state of the world.  [Get] is not embedded: it hands
    the call to the per-request registry of gorilla/sessions, which calls
    [New] the first time a name is asked for. *)
Module DdbStore.
Record t := mk {
  Codecs : list Codec.t;
  Options : ptr;
  region : string;
  tableName : string }.

Definition setCodecs (s : t) (cs : list Codec.t) : t :=
  mk cs (Options s) (region s) (tableName s).
End DdbStore.

Section Store.
Context {B : Type} `{!Deps B}.

(** [func (s *DdbStore) MaxLength(l int)].  The codecs are updated in
    place in Go; here the store with the updated codecs is returned. *)
Definition MaxLength (s : DdbStore.t) (l : Z) : DdbStore.t :=
  DdbStore.setCodecs s
    (map (fun c => if Codec.secure c then Codec.MaxLength c l else c)
         (DdbStore.Codecs s)).

(** [func (s *DdbStore) MaxAge(age int)] *)
Definition MaxAge (s : DdbStore.t) (age : Z) : M B DdbStore.t :=
  opts ← deref (DdbStore.Options s);
  _ ← assign (DdbStore.Options s) (sessions.setMaxAge opts age);
  mret (DdbStore.setCodecs s
          (map (fun codec => if Codec.secure codec then Codec.MaxAge codec age else codec)
               (DdbStore.Codecs s))).

(** [func (s *DdbStore) save(session *sessions.Session) error] *)
Definition save (s : DdbStore.t) (session : Session.t) : M B (option error) :=
  now ← Now;
  match EncodeMulti now (Session.name session) (PValues (Session.Values session))
                    (DdbStore.Codecs s) with
  | inl err => mret (Some err)
  | inr encoded =>
      now ← Now;
      let expiration := Unix (now + expiryTime) in
      let input := PutItemInput.mk (DdbStore.tableName s)
        (<[dynamodbUuidColumnName := AttributeValueMemberS (Session.ID session)]>
         (<[dynamodbExpirationColumnName := AttributeValueMemberN (pretty expiration)]>
          (<[dynamodbDataColumnName := AttributeValueMemberS encoded]> ∅))) in
      err ← invoke (PutItem input) (EvPutItem input);
      match err with
      | Some err => mret (Some err)
      | None => mret None
      end
  end.

(** [func (s *DdbStore) load(session *sessions.Session) error].  The
    session is a pointer in Go; its state after the call is returned
    next to the error. *)
Definition load (s : DdbStore.t) (session : Session.t) : M B (Session.t * option error) :=
  let input := GetItemInput.mk (DdbStore.tableName s)
    (<[dynamodbUuidColumnName := AttributeValueMemberS (Session.ID session)]> ∅) in
  '(output, err) ← invoke (GetItem input) (EvGetItem input);
  match output with
  | None => raise NilDereference                     (* output.Item, output nil *)
  | Some output =>
      match GetItemOutput.Item output with
      | None => mret (session, None)
      | Some item =>
          match err with
          | Some err => mret (session, Some err)
          | None =>
              match item !! "data" with
              | Some (AttributeValueMemberS encodedData) =>
                  now ← Now;
                  match DecodeMultiValues now (Session.name session) encodedData
                                          (DdbStore.Codecs s) with
                  | inl err => mret (session, Some err)
                  | inr values =>
                      (* gob decodes into the map the session already has *)
                      mret (Session.setValues session (values ∪ Session.Values session), None)
                  end
              | _ => raise TypeAssertion              (* the unchecked type assertion *)
              end
          end
      end
  end.

(** [func (s *DdbStore) erase(session *sessions.Session) error] *)
Definition erase (s : DdbStore.t) (session : Session.t) : M B (option error) :=
  let input := DeleteItemInput.mk (DdbStore.tableName s)
    (<[dynamodbUuidColumnName := AttributeValueMemberS (Session.ID session)]> ∅) in
  invoke (DeleteItem input) (EvDeleteItem input).

(** [func (s *DdbStore) New(r *http.Request, name string)], returning the
    session and the error. *)
Definition New (s : DdbStore.t) (r : Request.t) (name : string)
    : M B (Session.t * option error) :=
  let session := NewSession name in
  opts ← deref (DdbStore.Options s);
  p ← alloc opts;
  let session := Session.setOptions session p in
  let session := Session.setIsNew session true in
  match Request_Cookie r name with
  | inr c =>
      now ← Now;
      match DecodeMultiString now name c (DdbStore.Codecs s) with
      | inr id =>
          let session := Session.setID session id in
          '(session, err) ← load s session;
          match err with
          | None => mret (Session.setIsNew session false, None)
          | Some err => mret (session, Some err)
          end
      | inl err => mret (session, Some err)
      end
  | inl errCookie => mret (session, None)
  end.

(** [func (s *DdbStore) Save(r *http.Request, w http.ResponseWriter,
    session *sessions.Session) error].  Returned: the session and the
    response writer as the call leaves them, and the error. *)
Definition Save (s : DdbStore.t) (r : Request.t) (w : ResponseWriter)
    (session : Session.t) : M B (Session.t * ResponseWriter * option error) :=
  opts ← deref (Session.Options session);
  if decide (sessions.MaxAge opts ≤ 0) then
    err ← erase s session;
    match err with
    | Some err => mret (session, w, Some err)
    | None =>
        opts ← deref (Session.Options session);
        now ← Now;
        mret (session, SetCookie w (NewCookie now (Session.name session) "" opts), None)
    end
  else
    session ← (if decide (Session.ID session = "") then
                 key ← GenerateRandomKey 32;
                 mret (Session.setID session (base32RawStdEncoding key))
               else mret session);
    err ← save s session;
    match err with
    | Some err => mret (session, w, Some err)
    | None =>
        now ← Now;
        match EncodeMulti now (Session.name session) (PString (Session.ID session))
                          (DdbStore.Codecs s) with
        | inl err => mret (session, w, Some err)
        | inr encoded =>
            opts ← deref (Session.Options session);
            now ← Now;
            mret (session,
                  SetCookie w (NewCookie now (Session.name session) encoded opts), None)
        end
    end.

(** [func (ds *DdbStore) createTable() error] *)
Definition createTable (ds : DdbStore.t) : M B (option error) :=
  let input := CreateTableInput.mk (DdbStore.tableName ds)
    [AttributeDefinition.mk dynamodbUuidColumnName ScalarAttributeTypeS]
    [KeySchemaElement.mk dynamodbUuidColumnName KeyTypeHash]
    BillingModePayPerRequest in
  err ← invoke (CreateTable input) (EvCreateTable input);
  match err with
  | Some err => mret (Some err)
  | None =>
      _ ← Sleep (10 * Second);
      let input := UpdateTimeToLiveInput.mk (DdbStore.tableName ds)
        (TimeToLiveSpecification.mk true dynamodbExpirationColumnName) in
      err ← invoke (UpdateTimeToLive input) (EvUpdateTimeToLive input);
      match err with
      | Some err => mret (Some err)
      | None => mret None
      end
  end.

(** [func (ds *DdbStore) ensureTable() error] *)
Definition ensureTable (ds : DdbStore.t) : M B (option error) :=
  let input := DescribeTableInput.mk (DdbStore.tableName ds) in
  err ← invoke (DescribeTable input) (EvDescribeTable input);
  match err with
  | Some err =>
      if errorsAsResourceNotFound err then createTable ds
      else mret (Some err)
  | None => mret None
  end.

(** [func NewDdbStore(region string, tableName string, keyPairs ...[]byte)],
    returning the store (nil on failure) and the error. *)
Definition NewDdbStore (region tableName : string) (keyPairs : list (list Byte.byte))
    : M B (option DdbStore.t * option error) :=
  match NewConfig region with
  | Some err => mret (None, Some err)
  | None =>
      p ← alloc (sessions.mkOptions "" "" (86400 * 30) false false 0);
      let ddbs := DdbStore.mk (CodecsFromPairs keyPairs) p region tableName in
      opts ← deref (DdbStore.Options ddbs);
      ddbs ← MaxAge ddbs (sessions.MaxAge opts);
      err ← ensureTable ddbs;
      match err with
      | Some err => mret (None, Some err)
      | None => mret (Some ddbs, None)
      end
  end.

(** [session.Options.MaxAge = age], as a handler writes it. *)
Definition setSessionMaxAge (session : Session.t) (age : Z) : M B unit :=
  opts ← deref (Session.Options session);
  assign (Session.Options session) (sessions.setMaxAge opts age).

End Store.

(** ** An in-memory table service

    A model of the DynamoDB service the store talks to, for running the
    store: tables of items under a string partition key, and a script of
    faults.  Every operation first takes the next entry of the script; an
    error there (timeout, throttling, permission) fails the call the way the
    SDK reports a failure, with a nil output, and leaves the tables alone. *)
Module MemDB.

Record Table := mkTable {
  hashKey : string;
  billing : BillingMode;
  ttlAttribute : option string;
  items : gmap string (gmap string AttributeValue) }.

Record t := mk {
  tables : gmap string Table;
  faults : list (option error) }.

Definition notFound (operation table : string) : error :=
  OperationError operation
    (ResourceNotFoundException ("Requested resource not found: Table: " +:+ table +:+ " not found")).

Definition inUse (operation table : string) : error :=
  OperationError operation (ErrorString ("ResourceInUseException: Table already exists: " +:+ table)).

Definition validation (operation : string) : error :=
  OperationError operation
    (ErrorString "ValidationException: The provided key element does not match the schema").

(** The next entry of the fault script. *)
Definition step (db : t) : option error * t :=
  match faults db with
  | [] => (None, db)
  | f :: rest => (f, mk (tables db) rest)
  end.

Definition setTable (db : t) (name : string) (tbl : Table) : t :=
  mk (<[name := tbl]> (tables db)) (faults db).

Definition setItems (tbl : Table) (its : gmap string (gmap string AttributeValue)) : Table :=
  mkTable (hashKey tbl) (billing tbl) (ttlAttribute tbl) its.

(** The partition key value named by a key or an item. *)
Definition keyOf (tbl : Table) (attrs : gmap string AttributeValue) : option string :=
  match attrs !! hashKey tbl with
  | Some (AttributeValueMemberS id) => Some id
  | _ => None
  end.

Definition GetItem (input : GetItemInput.t) (db : t)
    : option GetItemOutput.t * option error * t :=
  match step db with
  | (Some err, db) => (None, Some err, db)
  | (None, db) =>
      match tables db !! GetItemInput.TableName input with
      | None => (None, Some (notFound "GetItem" (GetItemInput.TableName input)), db)
      | Some tbl =>
          match keyOf tbl (GetItemInput.Key input) with
          | None => (None, Some (validation "GetItem"), db)
          | Some id => (Some (GetItemOutput.mk (items tbl !! id)), None, db)
          end
      end
  end.

Definition PutItem (input : PutItemInput.t) (db : t) : option error * t :=
  match step db with
  | (Some err, db) => (Some err, db)
  | (None, db) =>
      match tables db !! PutItemInput.TableName input with
      | None => (Some (notFound "PutItem" (PutItemInput.TableName input)), db)
      | Some tbl =>
          match keyOf tbl (PutItemInput.Item input) with
          | None => (Some (validation "PutItem"), db)
          | Some id =>
              (None, setTable db (PutItemInput.TableName input)
                       (setItems tbl (<[id := PutItemInput.Item input]> (items tbl))))
          end
      end
  end.

Definition DeleteItem (input : DeleteItemInput.t) (db : t) : option error * t :=
  match step db with
  | (Some err, db) => (Some err, db)
  | (None, db) =>
      match tables db !! DeleteItemInput.TableName input with
      | None => (Some (notFound "DeleteItem" (DeleteItemInput.TableName input)), db)
      | Some tbl =>
          match keyOf tbl (DeleteItemInput.Key input) with
          | None => (Some (validation "DeleteItem"), db)
          | Some id =>
              (None, setTable db (DeleteItemInput.TableName input)
                       (setItems tbl (delete id (items tbl))))
          end
      end
  end.

Definition DescribeTable (input : DescribeTableInput.t) (db : t) : option error * t :=
  match step db with
  | (Some err, db) => (Some err, db)
  | (None, db) =>
      match tables db !! DescribeTableInput.TableName input with
      | None => (Some (notFound "DescribeTable" (DescribeTableInput.TableName input)), db)
      | Some _ => (None, db)
      end
  end.

Definition CreateTable (input : CreateTableInput.t) (db : t) : option error * t :=
  match step db with
  | (Some err, db) => (Some err, db)
  | (None, db) =>
      match tables db !! CreateTableInput.TableName input with
      | Some _ => (Some (inUse "CreateTable" (CreateTableInput.TableName input)), db)
      | None =>
          match CreateTableInput.KeySchema input with
          | [KeySchemaElement.mk key KeyTypeHash] =>
              (None, setTable db (CreateTableInput.TableName input)
                       (mkTable key (CreateTableInput.BillingMode input) None ∅))
          | _ => (Some (validation "CreateTable"), db)
          end
      end
  end.

Definition UpdateTimeToLive (input : UpdateTimeToLiveInput.t) (db : t) : option error * t :=
  match step db with
  | (Some err, db) => (Some err, db)
  | (None, db) =>
      match tables db !! UpdateTimeToLiveInput.TableName input with
      | None => (Some (notFound "UpdateTimeToLive" (UpdateTimeToLiveInput.TableName input)), db)
      | Some tbl =>
          let spec := UpdateTimeToLiveInput.TimeToLiveSpecification input in
          (None, setTable db (UpdateTimeToLiveInput.TableName input)
                   (mkTable (hashKey tbl) (billing tbl)
                      (if TimeToLiveSpecification.Enabled spec
                       then Some (TimeToLiveSpecification.AttributeName spec) else None)
                      (items tbl)))
      end
  end.

(** The record stored under an identifier, if any. *)
Definition record (db : t) (table id : string) : option (gmap string AttributeValue) :=
  tbl ← tables db !! table; items tbl !! id.

End MemDB.

(** ** A transparent codec

    A stand-in for securecookie with no cryptography: a token is the key,
    the cookie name and the serialized value, separated by colons.  A token
    made under another key or name does not decode, and a token longer than
    the maximum length is refused. *)
Module PlainCodec.

Fixpoint stripPrefix (p s : string) : option string :=
  match p, s with
  | EmptyString, _ => Some s
  | String a p', String b s' => if Ascii.eqb a b then stripPrefix p' s' else None
  | String _ _, EmptyString => None
  end.

Definition serializeValues (v : gmap string string) : string :=
  foldr (fun '(k, x) acc => k +:+ "=" +:+ x +:+ ";" +:+ acc) "" (map_to_list v).

(** Reads [k=x;] groups; [cur] is the text read since the last separator. *)
Fixpoint parseValues (s : string) (key : option string) (cur : string)
    (acc : gmap string string) : option (gmap string string) :=
  match s with
  | EmptyString =>
      match key with
      | None => if decide (cur = "") then Some acc else None
      | Some _ => None
      end
  | String c rest =>
      match key with
      | None =>
          if Ascii.eqb c "="%char then parseValues rest (Some cur) "" acc
          else parseValues rest None (cur +:+ String c "") acc
      | Some k =>
          if Ascii.eqb c ";"%char then parseValues rest None "" (<[k := cur]> acc)
          else parseValues rest key (cur +:+ String c "") acc
      end
  end.

Definition errTooLong : error := ErrorString "securecookie: the value is too long".
Definition errNotValid : error := ErrorString "securecookie: the value is not valid".

Definition header (key name : string) : string := key +:+ ":" +:+ name +:+ ":".

Definition encode (key : string) (maxAge maxLength now : Z) (name : string)
    (v : Payload) : error + string :=
  let token := header key name +:+
               match v with PString s => s | PValues m => serializeValues m end in
  if decide (maxLength ≠ 0 ∧ maxLength < Z.of_nat (String.length token))
  then inl errTooLong else inr token.

Definition body (key : string) (maxLength : Z) (name value : string) : error + string :=
  if decide (maxLength ≠ 0 ∧ maxLength < Z.of_nat (String.length value))
  then inl errTooLong
  else match stripPrefix (header key name) value with
       | Some b => inr b
       | None => inl errNotValid
       end.

Definition decodeString (key : string) (maxAge maxLength now : Z) (name value : string)
    : error + string :=
  body key maxLength name value.

Definition decodeValues (key : string) (maxAge maxLength now : Z) (name value : string)
    : error + gmap string string :=
  match body key maxLength name value with
  | inl err => inl err
  | inr b =>
      match parseValues b None "" ∅ with
      | Some m => inr m
      | None => inl errNotValid
      end
  end.

(** [securecookie.New]: thirty days, 4096 bytes. *)
Definition new (key : string) : Codec.t :=
  Codec.mk true (86400 * 30) 4096 (encode key) (decodeString key) (decodeValues key).

(** [securecookie.CodecsFromPairs]: one codec per (hash key, block key)
    pair. *)
Fixpoint codecsFromPairs (keyPairs : list (list Byte.byte)) : list Codec.t :=
  match keyPairs with
  | [] => []
  | [hashKey] => [new (string_of_list_byte hashKey)]
  | hashKey :: _ :: rest => new (string_of_list_byte hashKey) :: codecsFromPairs rest
  end.

End PlainCodec.

#[global] Instance memDeps : Deps MemDB.t := {
  NewConfig := fun _ => None;
  CodecsFromPairs := PlainCodec.codecsFromPairs;
  GetItem := MemDB.GetItem;
  PutItem := MemDB.PutItem;
  DeleteItem := MemDB.DeleteItem;
  DescribeTable := MemDB.DescribeTable;
  CreateTable := MemDB.CreateTable;
  UpdateTimeToLive := MemDB.UpdateTimeToLive }.

(** ** Concrete worlds for running the store *)

Module Fixtures.

Definition defaults : sessions.Options :=
  sessions.mkOptions "/" "" (86400 * 30) false true 0.

(** Options of a session whose handler asked for deletion. *)
Definition expired : sessions.Options :=
  sessions.mkOptions "/" "" (-1) false true 0.

Definition store : DdbStore.t :=
  DdbStore.mk [PlainCodec.new "k1"] (Some 1%positive) "us-east-2" "sessions".

Definition emptyTable : MemDB.Table :=
  MemDB.mkTable "uuid" BillingModePayPerRequest (Some "expiration") ∅.

(** A service that has the table with the given items, and the faults to
    come. *)
Definition serviceWith (its : gmap string (gmap string AttributeValue))
    (faults : list (option error)) : MemDB.t :=
  MemDB.mk (<["sessions" := MemDB.setItems emptyTable its]> ∅) faults.

Definition service (its : gmap string (gmap string AttributeValue)) : MemDB.t :=
  serviceWith its [].

(** Cell 1 holds the store's defaults, cells 2 and 3 the options of two
    sessions. *)
Definition world (db : MemDB.t) : World MemDB.t :=
  mkWorld (<[1%positive := defaults]> (<[2%positive := defaults]>
            (<[3%positive := expired]> ∅)))
          1700000000123456789
          [map byte_of_ascii (list_ascii_of_string "0123456789abcdef0123456789abcdef")]
          db [].

(** A request that presents cookie [name] with the token for [id]. *)
Definition requestFor (name id : string) : Request.t :=
  Request.mk [(name, "k1:" +:+ name +:+ ":" +:+ id)].

Definition timeout : error := OperationError "GetItem" (ErrorString "RequestTimeout").

Definition throttled : error :=
  OperationError "DeleteItem" (ErrorString "ThrottlingException").

(** The record [save] writes for session "ABC" holding hello = world. *)
Definition helloRecord : gmap string AttributeValue :=
  <["uuid" := AttributeValueMemberS "ABC"]>
  (<["expiration" := AttributeValueMemberN "1700003600"]>
   (<["data" := AttributeValueMemberS "k1:sid:hello=world;"]> ∅)).

(** A record written by something else: its [data] is a number. *)
Definition foreignRecord : gmap string AttributeValue :=
  <["uuid" := AttributeValueMemberS "ABC"]>
  (<["expiration" := AttributeValueMemberN "1700003600"]>
   (<["data" := AttributeValueMemberN "42"]> ∅)).

Definition unsaved : Session.t := Session.mk "" ∅ (Some 2%positive) true "sid".

Definition hello : Session.t :=
  Session.mk "ABC" (<["hello" := "world"]> ∅) (Some 2%positive) false "sid".

Definition leaving : Session.t :=
  Session.mk "ABC" (<["hello" := "world"]> ∅) (Some 3%positive) false "sid".

(** Options with max-age zero, a world that has them in cell 4, and a saved
    session that points to them. *)
Definition zeroAge : sessions.Options :=
  sessions.mkOptions "/" "" 0 false true 0.

Definition zeroWorld (db : MemDB.t) : World MemDB.t :=
  mkWorld (<[4%positive := zeroAge]> (heap (world db))) (clock (world db))
          (entropy (world db)) db [].

Definition lingering : Session.t :=
  Session.mk "ABC" (<["hello" := "world"]> ∅) (Some 4%positive) false "sid".

End Fixtures.

(** * Properties *)

(** Unfolds the monad down to case analyses on worlds. *)
Ltac run :=
  unfold mbind, M_bind, mret, M_ret, raise, Now, Sleep, deref, alloc, assign, invoke in *;
  cbn beta iota zeta in *.

(** Reduces projections of records that are given by their constructor. *)
Ltac fields H :=
  cbv zeta in H;
  cbn [heap clock entropy backend trace fst snd
       NewSession Session.ID Session.Values Session.Options Session.IsNew Session.name
       Session.setID Session.setValues Session.setOptions Session.setIsNew] in H.

(** The same in the goal, with the projections of the store. *)
Ltac fieldsG :=
  cbv zeta;
  cbn [heap clock entropy backend trace fst snd
       DdbStore.Codecs DdbStore.Options DdbStore.region DdbStore.tableName
       DdbStore.setCodecs sessions.MaxAge
       NewSession Session.ID Session.Values Session.Options Session.IsNew Session.name
       Session.setID Session.setValues Session.setOptions Session.setIsNew].

Section Generic.
Context {B : Type} `{!Deps B}.

Implicit Types (s : DdbStore.t) (session : Session.t) (w : World B).

(** What [load] does, by the answer of [GetItem]. *)
Lemma load_cases s session w :
  let input := GetItemInput.mk (DdbStore.tableName s)
    (<[dynamodbUuidColumnName := AttributeValueMemberS (Session.ID session)]> ∅) in
  let '(output, err, b) := GetItem input (backend w) in
  let w' := mkWorld (heap w) (clock w) (entropy w) b (trace w ++ [EvGetItem input]) in
  load s session w =
    match output with
    | None => Panicked NilDereference w'
    | Some output =>
        match GetItemOutput.Item output with
        | None => Done (session, None) w'
        | Some item =>
            match err with
            | Some err => Done (session, Some err) w'
            | None =>
                match item !! "data" with
                | Some (AttributeValueMemberS encodedData) =>
                    match DecodeMultiValues (clock w) (Session.name session) encodedData
                                            (DdbStore.Codecs s) with
                    | inl err => Done (session, Some err) w'
                    | inr values =>
                        Done (Session.setValues session (values ∪ Session.Values session), None) w'
                    end
                | _ => Panicked TypeAssertion w'
                end
            end
        end
    end.
Proof.
  intros input. unfold load. fold input. run.
  destruct (GetItem input (backend w)) as [[output err] b]; cbn.
  destruct output as [output|]; [|reflexivity].
  destruct (GetItemOutput.Item output) as [item|]; [|reflexivity].
  destruct err as [err|]; [reflexivity|].
  destruct (item !! "data") as [[]|]; try reflexivity.
  cbn. destruct (DecodeMultiValues _ _ _ _); reflexivity.
Qed.

(** A get that fails: [load] hands the error back only if the client also
    returned an output that holds an item.  With the nil output the SDK
    returns on failure it panics, and with an output without item the error
    is dropped. *)
Lemma load_error_outcomes s session w output e b :
  GetItem (GetItemInput.mk (DdbStore.tableName s)
             (<[dynamodbUuidColumnName := AttributeValueMemberS (Session.ID session)]> ∅))
          (backend w) = (output, Some e, b) ->
  ∃ w',
    load s session w =
      match output with
      | None => Panicked NilDereference w'
      | Some output =>
          match GetItemOutput.Item output with
          | None => Done (session, None) w'
          | Some _ => Done (session, Some e) w'
          end
      end.
Proof.
  intros Hg. pose proof (load_cases s session w) as Hl. fields Hl.
  rewrite Hg in Hl. rewrite Hl. eexists.
  destruct output as [[[item|]]|]; reflexivity.
Qed.

(** [New] up to the cookie: the defaults are read and copied to a new cell. *)
Lemma New_no_cookie s r name w ls o :
  DdbStore.Options s = Some ls -> heap w !! ls = Some o ->
  Request_Cookie r name = inl ErrNoCookie ->
  New s r name w =
    Done (Session.mk "" ∅ (Some (fresh (dom (heap w)))) true name, None)
         (mkWorld (<[fresh (dom (heap w)) := o]> (heap w)) (clock w) (entropy w)
                  (backend w) (trace w)).
Proof.
  intros Hs Hh Hc. unfold New. run. rewrite Hs, Hh, Hc. reflexivity.
Qed.

(** C1, as amended: a cookie that decodes to an identifier for which the
    service answers with no item makes [New] return, without error, a
    session with an empty values map that carries the decoded identifier
    and has [IsNew = false]. *)
Theorem New_missing_record s r name w ls o c id b :
  DdbStore.Options s = Some ls -> heap w !! ls = Some o ->
  Request_Cookie r name = inr c ->
  DecodeMultiString (clock w) name c (DdbStore.Codecs s) = inr id ->
  GetItem (GetItemInput.mk (DdbStore.tableName s)
             (<[dynamodbUuidColumnName := AttributeValueMemberS id]> ∅)) (backend w)
    = (Some (GetItemOutput.mk None), None, b) ->
  ∃ session w',
    New s r name w = Done (session, None) w' ∧
    Session.IsNew session = false ∧
    Session.Values session = ∅ ∧
    Session.ID session = id ∧
    Session.name session = name.
Proof.
  intros Hs Hh Hc Hd Hg. unfold New. run. rewrite Hs, Hh, Hc. cbn. rewrite Hd.
  pose proof (load_cases s
    (Session.setID (Session.setIsNew (Session.setOptions (NewSession name)
       (Some (fresh (dom (heap w))))) true) id)
    (mkWorld (<[fresh (dom (heap w)) := o]> (heap w)) (clock w) (entropy w)
             (backend w) (trace w))) as Hl.
  cbn in Hl. rewrite Hg in Hl. cbn in Hl. rewrite Hl.
  eexists _, _. repeat split.
Qed.

(** C2, as amended: a cookie that does not decode makes [New] return the
    session a request without cookie gets (new, no values, no identifier),
    without any call to the service, together with the decode error. *)
Theorem New_undecodable_cookie s r name w ls o c err :
  DdbStore.Options s = Some ls -> heap w !! ls = Some o ->
  Request_Cookie r name = inr c ->
  DecodeMultiString (clock w) name c (DdbStore.Codecs s) = inl err ->
  ∃ session w',
    New s r name w = Done (session, Some err) w' ∧
    New s (Request.mk []) name w = Done (session, None) w' ∧
    Session.IsNew session = true ∧
    Session.Values session = ∅ ∧
    Session.ID session = "" ∧
    trace w' = trace w ∧ backend w' = backend w.
Proof.
  intros Hs Hh Hc Hd.
  rewrite (New_no_cookie s (Request.mk []) name w ls o Hs Hh eq_refl).
  unfold New. run. rewrite Hs, Hh, Hc. cbn. rewrite Hd.
  eexists _, _. repeat split.
Qed.


(** The retention window is an hour of whole seconds. *)
Lemma Unix_expiryTime now : Unix (now + expiryTime) = Unix now + 3600.
Proof.
  unfold Unix, expiryTime, Minute, Second, Nanosecond.
  replace (now + 60 * (60 * (1000000000 * 1))) with (now + 3600 * (1000000000 * 1)) by lia.
  rewrite Z.div_add by lia. reflexivity.
Qed.

(** What [save] does, by the result of encoding the values. *)
Lemma save_cases s session w :
  save s session w =
    match EncodeMulti (clock w) (Session.name session) (PValues (Session.Values session))
                      (DdbStore.Codecs s) with
    | inl err => Done (Some err) w
    | inr encoded =>
        let input := PutItemInput.mk (DdbStore.tableName s)
          (<[dynamodbUuidColumnName := AttributeValueMemberS (Session.ID session)]>
           (<[dynamodbExpirationColumnName :=
                AttributeValueMemberN (pretty (Unix (clock w + expiryTime)))]>
            (<[dynamodbDataColumnName := AttributeValueMemberS encoded]> ∅))) in
        Done (PutItem input (backend w)).1
             (mkWorld (heap w) (clock w) (entropy w) (PutItem input (backend w)).2
                      (trace w ++ [EvPutItem input]))
    end.
Proof.
  unfold save. run. destruct (EncodeMulti _ _ _ _) as [err|encoded]; [reflexivity|].
  cbn. destruct (PutItem _ _) as [[err|] b]; reflexivity.
Qed.

(** [Save] returns whenever the session's options can be read; it leaves
    the heap and the session's pointer alone, and the identifier and the
    random source change only on the minting path. *)
Lemma Save_post s r rw session w l o :
  Session.Options session = Some l -> heap w !! l = Some o ->
  match Save s r rw session w with
  | Done (session1, rw1, err1) w1 =>
      heap w1 = heap w ∧
      Session.Options session1 = Session.Options session ∧
      (if decide (Session.ID session = "" ∧ 0 < sessions.MaxAge o)
       then ∃ key w0, GenerateRandomKey 32 w = Done key w0 ∧
                      Session.ID session1 = base32RawStdEncoding key ∧
                      entropy w1 = entropy w0
       else Session.ID session1 = Session.ID session ∧ entropy w1 = entropy w)
  | Panicked _ _ => False
  end.
Proof.
  intros Ho Hh. unfold Save, erase. run. rewrite Ho, Hh. cbn.
  destruct (decide (Session.ID session = "" ∧ 0 < sessions.MaxAge o)) as [[Hid Hage]|Hkeep].
  - rewrite (decide_False (P := sessions.MaxAge o ≤ 0)) by lia.
    rewrite (decide_True (P := Session.ID session = "")) by done.
    unfold GenerateRandomKey.
    destruct (entropy w) as [|key rest] eqn:He;
      rewrite save_cases; cbn;
      (destruct (EncodeMulti _ _ (PValues _) _) as [err|encoded]; cbn;
       [|destruct (PutItem _ _) as [[err|] b]; cbn;
         [|destruct (EncodeMulti _ _ (PString _) _) as [err|token]; cbn;
           [|rewrite ?Ho; cbn; rewrite ?Hh; cbn]]]);
      (split; [reflexivity|]; split; [assumption|];
       eexists _, _; repeat split).
  - destruct (decide (sessions.MaxAge o ≤ 0)) as [Hle|Hgt].
    + destruct (DeleteItem _ _) as [[err|] b]; cbn; [|rewrite ?Ho; cbn; rewrite ?Hh; cbn]; repeat split; assumption.
    + rewrite (decide_False (P := Session.ID session = "")) by (intros ?; apply Hkeep; split; [done|lia]).
      cbn. rewrite save_cases; cbn.
      destruct (EncodeMulti _ _ (PValues _) _) as [err|encoded]; cbn;
        [|destruct (PutItem _ _) as [[err|] b]; cbn;
          [|destruct (EncodeMulti _ _ (PString _) _) as [err|token]; cbn;
            [|rewrite ?Ho; cbn; rewrite ?Hh; cbn]]];
        repeat split; assumption.
Qed.

Lemma Save_outcome s r rw session w l o :
  Session.Options session = Some l -> heap w !! l = Some o ->
  ∃ session1 rw1 err1 w1,
    Save s r rw session w = Done (session1, rw1, err1) w1 ∧
    heap w1 = heap w ∧
    Session.Options session1 = Session.Options session ∧
    (if decide (Session.ID session = "" ∧ 0 < sessions.MaxAge o)
     then ∃ key w0, GenerateRandomKey 32 w = Done key w0 ∧
                    Session.ID session1 = base32RawStdEncoding key ∧
                    entropy w1 = entropy w0
     else Session.ID session1 = Session.ID session ∧ entropy w1 = entropy w).
Proof.
  intros Ho Hh. pose proof (Save_post s r rw session w l o Ho Hh) as HP.
  destruct (Save s r rw session w) as [[[session1 rw1] err1] w1|p w1]; [|done].
  exists session1, rw1, err1, w1. split; [reflexivity|exact HP].
Qed.

(** C5: [Save] takes a key from the random source and replaces the
    identifier exactly when the identifier is empty and max-age is
    positive; otherwise the identifier and the random source are left as
    they are, so a second [Save] on a session that has an identifier keeps
    it. *)
Theorem Save_identifier s r rw session w l o :
  Session.Options session = Some l -> heap w !! l = Some o ->
  ∃ session1 rw1 err1 w1,
    Save s r rw session w = Done (session1, rw1, err1) w1 ∧
    (Session.ID session = "" ∧ 0 < sessions.MaxAge o ->
       ∃ key w0, GenerateRandomKey 32 w = Done key w0 ∧
                 Session.ID session1 = base32RawStdEncoding key ∧
                 entropy w1 = entropy w0) ∧
    (¬ (Session.ID session = "" ∧ 0 < sessions.MaxAge o) ->
       Session.ID session1 = Session.ID session ∧ entropy w1 = entropy w) ∧
    (Session.ID session ≠ "" ->
       ∀ r2, ∃ session2 rw2 err2 w2,
         Save s r2 rw1 session1 w1 = Done (session2, rw2, err2) w2 ∧
         Session.ID session2 = Session.ID session ∧
         entropy w2 = entropy w).
Proof.
  intros Ho Hh.
  destruct (Save_outcome s r rw session w l o Ho Hh)
    as (session1 & rw1 & err1 & w1 & Hsave & Hheap & Hopt & Hid).
  exists session1, rw1, err1, w1. split; [exact Hsave|].
  split; [|split].
  - intros Hmint. rewrite decide_True in Hid by exact Hmint. exact Hid.
  - intros Hkeep. rewrite decide_False in Hid by exact Hkeep. exact Hid.
  - intros Hne r2.
    rewrite decide_False in Hid by tauto. destruct Hid as [Hid1 Hent1].
    destruct (Save_outcome s r2 rw1 session1 w1 l o) as
      (session2 & rw2 & err2 & w2 & Hsave2 & _ & _ & Hid2); [congruence..|].
    rewrite decide_False in Hid2 by (rewrite Hid1; tauto).
    exists session2, rw2, err2, w2. split; [exact Hsave2|].
    destruct Hid2 as [-> ->]. split; congruence.
Qed.

(** C6: once the values are encoded, [save] issues exactly one service
    call, a put of the record whose expiration attribute is the clock plus
    the constant [expiryTime] (3600 s), in whole seconds; nothing is read
    first, and neither the record nor the call depends on the heap of
    options or on the session's options pointer. *)
Theorem save_expiration s session w encoded :
  EncodeMulti (clock w) (Session.name session) (PValues (Session.Values session))
              (DdbStore.Codecs s) = inr encoded ->
  ∃ input,
    PutItemInput.TableName input = DdbStore.tableName s ∧
    PutItemInput.Item input !! dynamodbUuidColumnName
      = Some (AttributeValueMemberS (Session.ID session)) ∧
    PutItemInput.Item input !! dynamodbExpirationColumnName
      = Some (AttributeValueMemberN (pretty (Unix (clock w) + 3600))) ∧
    PutItemInput.Item input !! dynamodbDataColumnName
      = Some (AttributeValueMemberS encoded) ∧
    Unix (clock w + expiryTime) = Unix (clock w) + 3600 ∧
    ∀ h p,
      let w0 := mkWorld h (clock w) (entropy w) (backend w) (trace w) in
      ∃ w',
        save s (Session.setOptions session p) w0
          = Done (PutItem input (backend w)).1 w' ∧
        trace w' = trace w ++ [EvPutItem input] ∧
        backend w' = (PutItem input (backend w)).2 ∧
        heap w' = h.
Proof.
  intros Henc.
  exists (PutItemInput.mk (DdbStore.tableName s)
    (<[dynamodbUuidColumnName := AttributeValueMemberS (Session.ID session)]>
     (<[dynamodbExpirationColumnName :=
          AttributeValueMemberN (pretty (Unix (clock w + expiryTime)))]>
      (<[dynamodbDataColumnName := AttributeValueMemberS encoded]> ∅)))).
  cbn [PutItemInput.TableName PutItemInput.Item].
  split; [reflexivity|]. split; [apply lookup_insert_eq|].
  split; [|split; [|split]].
  - rewrite lookup_insert_ne by done. rewrite lookup_insert_eq.
    rewrite Unix_expiryTime. reflexivity.
  - rewrite !lookup_insert_ne by done. apply lookup_insert_eq.
  - apply Unix_expiryTime.
  - intros h p. rewrite save_cases. cbn. rewrite Henc. cbn.
    eexists. repeat split.
Qed.

(** C7: when the values do not encode, [Save] (on its saving path, max-age
    positive) returns the encoding error, issues no service call, leaves
    the service state as it was and adds no cookie to the response. *)
Theorem Save_encoding_failure s r rw session w l o err :
  Session.Options session = Some l -> heap w !! l = Some o ->
  0 < sessions.MaxAge o ->
  EncodeMulti (clock w) (Session.name session) (PValues (Session.Values session))
              (DdbStore.Codecs s) = inl err ->
  ∃ session' w',
    Save s r rw session w = Done (session', rw, Some err) w' ∧
    trace w' = trace w ∧ backend w' = backend w ∧ heap w' = heap w.
Proof.
  intros Ho Hh Hage Henc. unfold Save. run. rewrite Ho, Hh. cbn.
  rewrite decide_False by lia.
  destruct (decide (Session.ID session = "")) as [Hid|Hid].
  - unfold GenerateRandomKey.
    destruct (entropy w) as [|key rest]; rewrite save_cases; cbn; rewrite Henc; cbn;
      eexists _, _; repeat split.
  - cbn. rewrite save_cases, Henc. cbn. eexists _, _; repeat split.
Qed.


(** [New] always copies the defaults to a new cell before anything else,
    whatever happens afterwards. *)
Lemma New_post s r name w ls o :
  DdbStore.Options s = Some ls -> heap w !! ls = Some o ->
  match New s r name w with
  | Done (session, _) w' =>
      Session.Options session = Some (fresh (dom (heap w))) ∧
      heap w' = <[fresh (dom (heap w)) := o]> (heap w)
  | Panicked _ w' => heap w' = <[fresh (dom (heap w)) := o]> (heap w)
  end.
Proof.
  intros Hs Hh. unfold New. run. rewrite Hs, Hh. cbn.
  destruct (Request_Cookie r name) as [errCookie|c]; [split; reflexivity|].
  destruct (DecodeMultiString _ _ _ _) as [err|id]; [split; reflexivity|].
  match goal with
  | |- context [load s ?session ?w1] =>
      pose proof (load_cases s session w1) as Hl; fields Hl
  end.
  destruct (GetItem _ _) as [[output err] b].
  rewrite Hl. clear Hl.
  destruct output as [[[item|]]|]; cbn [GetItemOutput.Item];
    [|split; reflexivity|reflexivity].
  destruct err as [err|]; [split; reflexivity|].
  destruct (item !! "data") as [[]|]; try reflexivity.
  destruct (DecodeMultiValues _ _ _ _); split; reflexivity.
Qed.

(** What [ensureTable] asks of the service, by the answers it gets. *)
Lemma ensureTable_cases ds w :
  let describe := DescribeTableInput.mk (DdbStore.tableName ds) in
  let create := CreateTableInput.mk (DdbStore.tableName ds)
    [AttributeDefinition.mk "uuid" ScalarAttributeTypeS]
    [KeySchemaElement.mk "uuid" KeyTypeHash]
    BillingModePayPerRequest in
  let ttl := UpdateTimeToLiveInput.mk (DdbStore.tableName ds)
    (TimeToLiveSpecification.mk true "expiration") in
  ∃ err w',
    ensureTable ds w = Done err w' ∧
    match DescribeTable describe (backend w) with
    | (None, b1) =>
        err = None ∧ backend w' = b1 ∧ clock w' = clock w ∧
        trace w' = trace w ++ [EvDescribeTable describe]
    | (Some e, b1) =>
        if errorsAsResourceNotFound e then
          match CreateTable create b1 with
          | (Some e2, b2) =>
              err = Some e2 ∧ backend w' = b2 ∧ clock w' = clock w ∧
              trace w' = trace w ++ [EvDescribeTable describe; EvCreateTable create]
          | (None, b2) =>
              err = (UpdateTimeToLive ttl b2).1 ∧
              backend w' = (UpdateTimeToLive ttl b2).2 ∧
              clock w' = clock w + 10 * Second ∧
              trace w' = trace w ++ [EvDescribeTable describe; EvCreateTable create;
                                     EvSleep (10 * Second); EvUpdateTimeToLive ttl]
          end
        else
          err = Some e ∧ backend w' = b1 ∧ clock w' = clock w ∧
          trace w' = trace w ++ [EvDescribeTable describe]
    end.
Proof.
  intros describe create ttl.
  unfold ensureTable, createTable. run. fold describe.
  destruct (DescribeTable describe (backend w)) as [[e|] b1]; cbn.
  - destruct (errorsAsResourceNotFound e); cbn.
    + change (CreateTableInput.mk _ _ _ _) with create.
      destruct (CreateTable create b1) as [[e2|] b2]; cbn.
      * eexists _, _. repeat split. rewrite <- app_assoc. reflexivity.
      * change (UpdateTimeToLiveInput.mk _ _) with ttl.
        destruct (UpdateTimeToLive ttl b2) as [[e3|] b3]; cbn;
          eexists _, _; repeat split; rewrite <- !app_assoc; reflexivity.
    + eexists _, _. repeat split.
  - eexists _, _. repeat split.
Qed.

(** C8: construction describes the table first.  If that succeeds nothing
    else is asked of the service; if it fails with an error that is not a
    resource-not-found error, that error ends construction; if it fails
    with resource-not-found, the table is created with the single string
    hash key [uuid] and pay-per-request billing, and, after a pause of ten
    seconds, time-to-live is enabled on [expiration].  A failure of the
    create or of the time-to-live call ends construction with that error.
    No operation is issued twice. *)
Theorem NewDdbStore_provisions region tableName keyPairs w :
  NewConfig region = None ->
  let describe := DescribeTableInput.mk tableName in
  let create := CreateTableInput.mk tableName
    [AttributeDefinition.mk "uuid" ScalarAttributeTypeS]
    [KeySchemaElement.mk "uuid" KeyTypeHash]
    BillingModePayPerRequest in
  let ttl := UpdateTimeToLiveInput.mk tableName
    (TimeToLiveSpecification.mk true "expiration") in
  ∃ ds w0 err w',
    DdbStore.tableName ds = tableName ∧
    backend w0 = backend w ∧ trace w0 = trace w ∧ clock w0 = clock w ∧
    ensureTable ds w0 = Done err w' ∧
    NewDdbStore region tableName keyPairs w
      = Done (match err with None => Some ds | Some _ => None end, err) w' ∧
    match DescribeTable describe (backend w) with
    | (None, b1) =>
        err = None ∧ backend w' = b1 ∧ clock w' = clock w ∧
        trace w' = trace w ++ [EvDescribeTable describe]
    | (Some e, b1) =>
        if errorsAsResourceNotFound e then
          match CreateTable create b1 with
          | (Some e2, b2) =>
              err = Some e2 ∧ backend w' = b2 ∧ clock w' = clock w ∧
              trace w' = trace w ++ [EvDescribeTable describe; EvCreateTable create]
          | (None, b2) =>
              err = (UpdateTimeToLive ttl b2).1 ∧
              backend w' = (UpdateTimeToLive ttl b2).2 ∧
              clock w' = clock w + 10 * Second ∧
              trace w' = trace w ++ [EvDescribeTable describe; EvCreateTable create;
                                     EvSleep (10 * Second); EvUpdateTimeToLive ttl]
          end
        else
          err = Some e ∧ backend w' = b1 ∧ clock w' = clock w ∧
          trace w' = trace w ++ [EvDescribeTable describe]
    end.
Proof.
  intros Hc describe create ttl.
  unfold NewDdbStore, MaxAge. rewrite Hc. run. fieldsG.
  repeat (rewrite lookup_insert_eq; fieldsG).
  match goal with
  | |- context [ensureTable ?ds ?w0] =>
      exists ds, w0;
      destruct (ensureTable_cases ds w0) as (err & w' & HE & Hcases)
  end.
  exists err, w'. rewrite HE.
  split; [reflexivity|]. split; [reflexivity|]. split; [reflexivity|].
  split; [reflexivity|]. split; [reflexivity|].
  split; [destruct err; reflexivity|].
  exact Hcases.
Qed.

(** C9: when the service answers a get with an item, [load] goes on
    without panic exactly when the item's [data] attribute is a string
    member; an item without [data], or with [data] of another type, makes
    [load] panic on the type assertion after the get, and [New] with it:
    there is no error result for such a record. *)
Theorem load_untyped_data_panics s session w item b :
  let input := GetItemInput.mk (DdbStore.tableName s)
    (<[dynamodbUuidColumnName := AttributeValueMemberS (Session.ID session)]> ∅) in
  GetItem input (backend w) = (Some (GetItemOutput.mk (Some item)), None, b) ->
  match item !! "data" with
  | Some (AttributeValueMemberS _) => ∃ res w', load s session w = Done res w'
  | _ =>
      (∃ w', load s session w = Panicked TypeAssertion w' ∧
             trace w' = trace w ++ [EvGetItem input]) ∧
      ∀ r c ls o,
        DdbStore.Options s = Some ls -> heap w !! ls = Some o ->
        Request_Cookie r (Session.name session) = inr c ->
        DecodeMultiString (clock w) (Session.name session) c (DdbStore.Codecs s)
          = inr (Session.ID session) ->
        ∃ w', New s r (Session.name session) w = Panicked TypeAssertion w'
  end.
Proof.
  intros input Hg.
  assert (∀ r c ls o,
    item !! "data" = None ∨ (∃ a, item !! "data" = Some a ∧
                                   ∀ v, a ≠ AttributeValueMemberS v) ->
    DdbStore.Options s = Some ls -> heap w !! ls = Some o ->
    Request_Cookie r (Session.name session) = inr c ->
    DecodeMultiString (clock w) (Session.name session) c (DdbStore.Codecs s)
      = inr (Session.ID session) ->
    ∃ w', New s r (Session.name session) w = Panicked TypeAssertion w') as HNew.
  { intros r c ls o Hdata Hs Hh Hc Hd. unfold New. run. rewrite Hs, Hh, Hc. cbn.
    rewrite Hd.
    match goal with
    | |- context [load s ?session1 ?w1] =>
        pose proof (load_cases s session1 w1) as Hl; fields Hl
    end.
    fold input in Hl. rewrite Hg in Hl. cbn [GetItemOutput.Item] in Hl. rewrite Hl.
    destruct Hdata as [->|(a & -> & Ha)]; [eexists; reflexivity|].
    destruct a; try (eexists; reflexivity). exfalso. eapply Ha. reflexivity. }
  pose proof (load_cases s session w) as Hl. fields Hl. fold input in Hl.
  rewrite Hg in Hl. cbn [GetItemOutput.Item] in Hl. rewrite Hl.
  destruct (item !! "data") as [a|] eqn:Hdata.
  - destruct a;
      try (split; [eexists; split; reflexivity|];
           intros r c ls o; apply HNew; right; eexists; split; [reflexivity|];
           intros v; discriminate).
    destruct (DecodeMultiValues _ _ _ _); eexists _, _; reflexivity.
  - split; [eexists; split; reflexivity|].
    intros r c ls o. apply HNew. left. reflexivity.
Qed.

(** C10: the session [New] returns points to a cell of its own, allocated
    by this call and holding a copy of the store's defaults.  Writing the
    session's max-age changes that cell and no other: the defaults and the
    cells of all other sessions keep their contents.  The store's [MaxAge]
    writes the defaults and leaves the session's cell alone, and [Save]
    writes no cell at all. *)
Theorem New_options_are_a_copy s r name w ls o session err w' :
  DdbStore.Options s = Some ls -> heap w !! ls = Some o ->
  New s r name w = Done (session, err) w' ->
  ∃ l,
    Session.Options session = Some l ∧
    (l ∉ dom (heap w)) ∧ (l ≠ ls) ∧
    heap w' = <[l := o]> (heap w) ∧
    (∀ age, ∃ w1,
        setSessionMaxAge session age w' = Done tt w1 ∧
        heap w1 !! l = Some (sessions.setMaxAge o age) ∧
        heap w1 !! ls = Some o ∧
        ∀ l0, l0 ≠ l -> heap w1 !! l0 = heap w !! l0) ∧
    (∀ age, ∃ s1 w1,
        MaxAge s age w' = Done s1 w1 ∧
        heap w1 !! ls = Some (sessions.setMaxAge o age) ∧
        heap w1 !! l = Some o ∧
        ∀ l0, l0 ≠ ls -> heap w1 !! l0 = heap w' !! l0) ∧
    (∀ r1 rw, ∃ session1 rw1 err1 w1,
        Save s r1 rw session w' = Done (session1, rw1, err1) w1 ∧
        heap w1 = heap w').
Proof.
  intros Hs Hh HNew.
  pose proof (New_post s r name w ls o Hs Hh) as HP. rewrite HNew in HP.
  destruct HP as [Hopt Hheap].
  set (l := fresh (dom (heap w))) in *.
  assert (l ∉ dom (heap w)) as Hfresh by apply is_fresh.
  assert (l ≠ ls) as Hne.
  { intros ->. apply Hfresh. apply elem_of_dom. eauto. }
  exists l. split; [exact Hopt|]. split; [exact Hfresh|]. split; [exact Hne|].
  split; [exact Hheap|]. split; [|split].
  - intros age. unfold setSessionMaxAge. run.
    repeat (progress (rewrite ?Hopt, ?Hheap, ?lookup_insert_eq); fieldsG).
    eexists. split; [reflexivity|]. fieldsG.
    rewrite insert_insert_eq. rewrite lookup_insert_eq.
    split; [reflexivity|]. split.
    + rewrite lookup_insert_ne by done. exact Hh.
    + intros l0 Hl0. rewrite lookup_insert_ne by done. reflexivity.
  - intros age. unfold MaxAge. run.
    repeat (progress (rewrite ?Hs, ?Hheap, ?(lookup_insert_ne _ l ls) by done; rewrite ?Hh);
            fieldsG).
    eexists _, _. split; [reflexivity|]. fieldsG.
    rewrite lookup_insert_eq. split; [reflexivity|]. split.
    + rewrite lookup_insert_ne by done. apply lookup_insert_eq.
    + intros l0 Hl0. rewrite lookup_insert_ne by done. reflexivity.
  - intros r1 rw.
    assert (heap w' !! l = Some o) as Hl by (rewrite Hheap; apply lookup_insert_eq).
    destruct (Save_outcome s r1 rw session w' l o Hopt Hl) as
      (session1 & rw1 & err1 & w1 & HS & Hh1 & _).
    exists session1, rw1, err1, w1. split; assumption.
Qed.


End Generic.

(** * The store on the in-memory service *)

(** The fault script is the only part of the service state a failing or
    reading call changes. *)
Lemma MemDB_step_tables db f db' :
  MemDB.step db = (f, db') -> MemDB.tables db' = MemDB.tables db.
Proof.
  unfold MemDB.step. destruct (MemDB.faults db); intros [= <- <-]; reflexivity.
Qed.

(** The key the store builds names the identifier only in a table whose
    partition key is [uuid]. *)
Lemma MemDB_keyOf_uuid tbl id id' :
  MemDB.keyOf tbl (<[dynamodbUuidColumnName := AttributeValueMemberS id]> ∅) = Some id' ->
  MemDB.hashKey tbl = dynamodbUuidColumnName ∧ id' = id.
Proof.
  unfold MemDB.keyOf.
  destruct (decide (MemDB.hashKey tbl = dynamodbUuidColumnName)) as [->|Hne].
  - rewrite lookup_insert_eq. intros [= <-]. done.
  - rewrite lookup_insert_ne by done. rewrite lookup_empty. discriminate.
Qed.

(** After a delete that succeeded, the table has no record under the
    identifier, and a get that answers at all answers with no item. *)
Lemma MemDB_DeleteItem_absent table id db db' :
  MemDB.DeleteItem
    (DeleteItemInput.mk table (<[dynamodbUuidColumnName := AttributeValueMemberS id]> ∅)) db
    = (None, db') ->
  MemDB.record db' table id = None ∧
  ∀ output err db'',
    MemDB.GetItem
      (GetItemInput.mk table (<[dynamodbUuidColumnName := AttributeValueMemberS id]> ∅)) db'
      = (Some output, err, db'') ->
    GetItemOutput.Item output = None.
Proof.
  unfold MemDB.DeleteItem. cbn [DeleteItemInput.TableName DeleteItemInput.Key].
  destruct (MemDB.step db) as [[e|] db1] eqn:Hstep; [discriminate|].
  destruct (MemDB.tables db1 !! table) as [tbl|] eqn:Htbl; [|discriminate].
  destruct (MemDB.keyOf tbl _) as [id'|] eqn:Hkey; [|discriminate].
  apply MemDB_keyOf_uuid in Hkey as [Hhash ->].
  intros [= <-]. split.
  - unfold MemDB.record, MemDB.setTable. cbn. rewrite lookup_insert_eq. cbn.
    apply lookup_delete_eq.
  - intros output err db''. unfold MemDB.GetItem.
    cbn [GetItemInput.TableName GetItemInput.Key].
    destruct (MemDB.step (MemDB.setTable _ _ _)) as [[e|] db2] eqn:Hstep2; [discriminate|].
    apply MemDB_step_tables in Hstep2. rewrite Hstep2.
    unfold MemDB.setTable. cbn [MemDB.tables]. rewrite lookup_insert_eq.
    unfold MemDB.keyOf, MemDB.setItems. cbn [MemDB.hashKey MemDB.items].
    rewrite Hhash, lookup_insert_eq.
    intros [= <- _ _]. cbn. apply lookup_delete_eq.
Qed.

(** What [sessions.NewCookie] makes of the name, the value and the
    max-age. *)
Lemma NewCookie_fields now name value o :
  Cookie.Name (NewCookie now name value o) = name ∧
  Cookie.Value (NewCookie now name value o) = value ∧
  Cookie.MaxAge (NewCookie now name value o) = sessions.MaxAge o.
Proof.
  unfold NewCookie, newCookieFromOptions. cbv zeta.
  destruct (decide (0 < sessions.MaxAge o)); [repeat split|].
  destruct (decide (sessions.MaxAge o < 0)); repeat split.
Qed.

(** A negative max-age makes a cookie every client drops. *)
Lemma NewCookie_negative now now' name value o :
  sessions.MaxAge o < 0 ->
  Cookie.MaxAgeAttribute (NewCookie now name value o) = Some 0 ∧
  Cookie.Expires (NewCookie now name value o) = Some (1 * Second) ∧
  Cookie.expiredAt now' (NewCookie now name value o) = true.
Proof.
  intros Hneg. unfold Cookie.expiredAt, Cookie.MaxAgeAttribute.
  destruct (NewCookie_fields now name value o) as (_ & _ & ->).
  unfold NewCookie, newCookieFromOptions. cbv zeta.
  rewrite !(decide_False (P := 0 < sessions.MaxAge o)) by lia.
  rewrite !(decide_True (P := sessions.MaxAge o < 0)) by lia.
  repeat split.
Qed.

(** Max-age zero makes a cookie without [Max-Age] and without [Expires]:
    no client is told to drop it. *)
Lemma NewCookie_zero now now' name value o :
  sessions.MaxAge o = 0 ->
  Cookie.MaxAgeAttribute (NewCookie now name value o) = None ∧
  Cookie.Expires (NewCookie now name value o) = None ∧
  Cookie.expiredAt now' (NewCookie now name value o) = false.
Proof.
  intros Hzero. unfold Cookie.expiredAt, Cookie.MaxAgeAttribute.
  destruct (NewCookie_fields now name value o) as (_ & _ & ->).
  unfold NewCookie, newCookieFromOptions. cbv zeta.
  rewrite !(decide_False (P := 0 < sessions.MaxAge o)) by lia.
  rewrite !(decide_False (P := sessions.MaxAge o < 0)) by lia.
  repeat split.
Qed.

(** C4, as amended: on the table service, [Save] of a session whose
    max-age is zero or negative issues one delete for the session's
    identifier.  When the delete succeeds, [Save] returns no error, the
    table has no record under the identifier, a later get answers with no
    item, and the response gets one cookie for the session's name with the
    empty value and the session's max-age.  That cookie is expired (delete
    now, [Expires] one second after the epoch) when the max-age is
    negative; with max-age zero it has neither [Max-Age] nor [Expires] and
    is not expired.  When the delete fails, [Save] returns that error and
    the response is left without cookie. *)
Theorem Save_expired_erases (st : DdbStore.t) (r : Request.t) (rw : ResponseWriter)
    (session : Session.t) (w : World MemDB.t) (l : loc) (o : sessions.Options) :
  Session.Options session = Some l -> heap w !! l = Some o ->
  sessions.MaxAge o ≤ 0 ->
  let key : gmap string AttributeValue :=
    <[dynamodbUuidColumnName := AttributeValueMemberS (Session.ID session)]> ∅ in
  let input := DeleteItemInput.mk (DdbStore.tableName st) key in
  ∃ w',
    trace w' = trace w ++ [EvDeleteItem input] ∧
    heap w' = heap w ∧
    match MemDB.DeleteItem input (backend w) with
    | (None, db) =>
        (∃ cookie,
            Save st r rw session w = Done (session, rw ++ [cookie], None) w' ∧
            Cookie.Name cookie = Session.name session ∧
            Cookie.Value cookie = "" ∧
            Cookie.MaxAge cookie = sessions.MaxAge o ∧
            (sessions.MaxAge o < 0 ->
               Cookie.MaxAgeAttribute cookie = Some 0 ∧
               Cookie.Expires cookie = Some (1 * Second) ∧
               Cookie.expiredAt (clock w') cookie = true) ∧
            (sessions.MaxAge o = 0 ->
               Cookie.MaxAgeAttribute cookie = None ∧
               Cookie.Expires cookie = None ∧
               Cookie.expiredAt (clock w') cookie = false)) ∧
        backend w' = db ∧
        MemDB.record db (DdbStore.tableName st) (Session.ID session) = None ∧
        ∀ output err db',
          MemDB.GetItem (GetItemInput.mk (DdbStore.tableName st) key) db
            = (Some output, err, db') ->
          GetItemOutput.Item output = None
    | (Some err, db) =>
        Save st r rw session w = Done (session, rw, Some err) w' ∧
        backend w' = db
    end.
Proof.
  intros Ho Hh Hage key input.
  exists (mkWorld (heap w) (clock w) (entropy w)
                  (MemDB.DeleteItem input (backend w)).2
                  (trace w ++ [EvDeleteItem input])).
  split; [reflexivity|]. split; [reflexivity|].
  unfold Save, erase. run. rewrite Ho, Hh. cbn.
  rewrite decide_True by exact Hage. fold key. fold input.
  change (DeleteItem input (backend w)) with (MemDB.DeleteItem input (backend w)).
  destruct (MemDB.DeleteItem input (backend w)) as [[err|] db] eqn:Hdel; cbn.
  - split; reflexivity.
  - rewrite Hh.
    apply MemDB_DeleteItem_absent in Hdel as [Hrec Hget].
    split; [|split; [reflexivity|split; [exact Hrec|exact Hget]]].
    eexists. split; [reflexivity|].
    destruct (NewCookie_fields (clock w) (Session.name session) "" o) as (Hn & Hv & Hm).
    split; [exact Hn|]. split; [exact Hv|]. split; [exact Hm|]. split.
    + intros Hneg. apply NewCookie_negative. exact Hneg.
    + intros Hzero. apply NewCookie_zero. exact Hzero.
Qed.

(** A saved session leaves with max-age -1: its record is in the table
    before the call. *)
Lemma Save_expired_erases_witness :
  MemDB.record (Fixtures.service (<["ABC" := Fixtures.helloRecord]> ∅)) "sessions" "ABC"
    = Some Fixtures.helloRecord ∧
  ∃ cookie w',
    Save Fixtures.store (Request.mk []) [] Fixtures.leaving
         (Fixtures.world (Fixtures.service (<["ABC" := Fixtures.helloRecord]> ∅)))
      = Done (Fixtures.leaving, [] ++ [cookie], None) w' ∧
    Cookie.Name cookie = "sid" ∧
    Cookie.Value cookie = "" ∧
    Cookie.MaxAgeAttribute cookie = Some 0 ∧
    Cookie.Expires cookie = Some (1 * Second) ∧
    Cookie.expiredAt (clock w') cookie = true ∧
    MemDB.record (backend w') "sessions" "ABC" = None.
Proof.
  split; [vm_compute; reflexivity|].
  assert (sessions.MaxAge Fixtures.expired ≤ 0) as Hage by (vm_compute; discriminate).
  assert (sessions.MaxAge Fixtures.expired < 0) as Hneg by (vm_compute; reflexivity).
  assert (MemDB.DeleteItem
            (DeleteItemInput.mk (DdbStore.tableName Fixtures.store)
               (<[dynamodbUuidColumnName :=
                    AttributeValueMemberS (Session.ID Fixtures.leaving)]> ∅))
            (backend (Fixtures.world
               (Fixtures.service (<["ABC" := Fixtures.helloRecord]> ∅))))
          = (None, Fixtures.service ∅)) as Hdel by (vm_compute; reflexivity).
  destruct (Save_expired_erases Fixtures.store (Request.mk []) [] Fixtures.leaving
              (Fixtures.world (Fixtures.service (<["ABC" := Fixtures.helloRecord]> ∅)))
              3%positive Fixtures.expired eq_refl eq_refl Hage)
    as (w' & _ & _ & Hcase).
  rewrite Hdel in Hcase.
  destruct Hcase as ((cookie & HS & Hname & Hvalue & _ & Hexpired & _) & Hb & Hrec & _).
  destruct (Hexpired Hneg) as (Hattr & Hexp & Hdrop).
  exists cookie, w'. split; [exact HS|]. split; [exact Hname|]. split; [exact Hvalue|].
  split; [exact Hattr|]. split; [exact Hexp|]. split; [exact Hdrop|].
  rewrite Hb. exact Hrec.
Defined.

(** C4 as stated fails at max-age zero: the saved session's record is
    deleted and no error is returned, but the cookie that is set, with its
    empty value, has no [Max-Age] attribute and no [Expires], so it is not
    expired. *)
Lemma Save_zero_max_age_cookie_not_expired :
  sessions.MaxAge Fixtures.zeroAge ≤ 0 ∧
  MemDB.record (Fixtures.service (<["ABC" := Fixtures.helloRecord]> ∅)) "sessions" "ABC"
    = Some Fixtures.helloRecord ∧
  ∃ cookie w',
    Save Fixtures.store (Request.mk []) [] Fixtures.lingering
         (Fixtures.zeroWorld (Fixtures.service (<["ABC" := Fixtures.helloRecord]> ∅)))
      = Done (Fixtures.lingering, [cookie], None) w' ∧
    MemDB.record (backend w') "sessions" "ABC" = None ∧
    Cookie.Value cookie = "" ∧
    Cookie.MaxAge cookie = 0 ∧
    Cookie.MaxAgeAttribute cookie = None ∧
    Cookie.Expires cookie = None ∧
    Cookie.expiredAt (clock w') cookie = false.
Proof.
  split; [vm_compute; discriminate|]. split; [vm_compute; reflexivity|].
  eexists _, _. split; [vm_compute; reflexivity|].
  repeat split.
Qed.

(** C3 fails on the code: the service times out, the SDK hands back a nil
    output and the error, and [load] panics on [output.Item] before it looks
    at the error. *)
Theorem load_transport_error_panics :
  MemDB.GetItem (GetItemInput.mk "sessions" (<["uuid" := AttributeValueMemberS "ABC"]> ∅))
                (Fixtures.serviceWith ∅ [Some Fixtures.timeout])
    = (None, Some Fixtures.timeout, Fixtures.service ∅) ∧
  load Fixtures.store Fixtures.hello
       (Fixtures.world (Fixtures.serviceWith ∅ [Some Fixtures.timeout]))
    = Panicked NilDereference
        (mkWorld (heap (Fixtures.world (Fixtures.service ∅)))
                 (clock (Fixtures.world (Fixtures.service ∅)))
                 (entropy (Fixtures.world (Fixtures.service ∅)))
                 (Fixtures.service ∅)
                 [EvGetItem (GetItemInput.mk "sessions"
                               (<["uuid" := AttributeValueMemberS "ABC"]> ∅))]).
Proof.
  split; vm_compute; reflexivity.
Qed.

(** The round trip of the repository's test: a value saved under a new
    session comes back for the request that presents the cookie. *)
Example save_then_load :
  ∃ saved cookie w1 loaded w2,
    Save Fixtures.store (Request.mk []) []
         (Session.setValues Fixtures.unsaved (<["hello" := "world"]> ∅))
         (Fixtures.world (Fixtures.service ∅)) = Done (saved, [cookie], None) w1 ∧
    New Fixtures.store (Request.mk [(Cookie.Name cookie, Cookie.Value cookie)]) "sid" w1
      = Done (loaded, None) w2 ∧
    Session.IsNew loaded = false ∧
    Session.ID loaded = Session.ID saved ∧
    Session.Values loaded = <["hello" := "world"]> ∅.
Proof.
  eexists _, _, _, _, _.
  split; [vm_compute; reflexivity|]. split; [vm_compute; reflexivity|].
  repeat split.
Qed.

Lemma New_missing_record_witness :
  ∃ session w',
    New Fixtures.store (Fixtures.requestFor "sid" "ABC") "sid"
        (Fixtures.world (Fixtures.service ∅)) = Done (session, None) w' ∧
    Session.IsNew session = false ∧
    Session.Values session = ∅ ∧
    Session.ID session = "ABC" ∧
    Session.name session = "sid".
Proof.
  apply (New_missing_record Fixtures.store (Fixtures.requestFor "sid" "ABC") "sid"
           (Fixtures.world (Fixtures.service ∅)) 1%positive Fixtures.defaults
           "k1:sid:ABC" "ABC" (Fixtures.service ∅));
    vm_compute; reflexivity.
Defined.

(** C1 as stated fails: the cookie decodes to "ABC", the table holds no
    record for it, and the session [New] returns is not new. *)
Lemma New_missing_record_not_fresh :
  DecodeMultiString (clock (Fixtures.world (Fixtures.service ∅))) "sid" "k1:sid:ABC"
    (DdbStore.Codecs Fixtures.store) = inr "ABC" ∧
  MemDB.record (Fixtures.service ∅) "sessions" "ABC" = None ∧
  ¬ ∃ session err w',
      New Fixtures.store (Fixtures.requestFor "sid" "ABC") "sid"
          (Fixtures.world (Fixtures.service ∅)) = Done (session, err) w' ∧
      Session.IsNew session = true.
Proof.
  split; [vm_compute; reflexivity|]. split; [vm_compute; reflexivity|].
  intros (session & err & w' & Hnew & Hfresh).
  vm_compute in Hnew. injection Hnew as <- _ _. discriminate Hfresh.
Qed.

Lemma New_undecodable_cookie_witness :
  ∃ session w',
    New Fixtures.store (Request.mk [("sid", "forged")]) "sid"
        (Fixtures.world (Fixtures.service ∅))
      = Done (session, Some (MultiError [PlainCodec.errNotValid])) w' ∧
    New Fixtures.store (Request.mk []) "sid" (Fixtures.world (Fixtures.service ∅))
      = Done (session, None) w' ∧
    Session.IsNew session = true ∧
    Session.Values session = ∅ ∧
    Session.ID session = "" ∧
    trace w' = trace (Fixtures.world (Fixtures.service ∅)) ∧
    backend w' = backend (Fixtures.world (Fixtures.service ∅)).
Proof.
  apply (New_undecodable_cookie Fixtures.store (Request.mk [("sid", "forged")]) "sid"
           (Fixtures.world (Fixtures.service ∅)) 1%positive Fixtures.defaults "forged");
    vm_compute; reflexivity.
Defined.

(** C2 as stated fails: the forged cookie does not decode, and [New] hands
    the decode error to its caller. *)
Lemma New_undecodable_cookie_surfaces_error :
  DecodeMultiString (clock (Fixtures.world (Fixtures.service ∅))) "sid" "forged"
    (DdbStore.Codecs Fixtures.store) = inl (MultiError [PlainCodec.errNotValid]) ∧
  ¬ ∃ session w',
      New Fixtures.store (Request.mk [("sid", "forged")]) "sid"
          (Fixtures.world (Fixtures.service ∅)) = Done (session, None) w'.
Proof.
  split; [vm_compute; reflexivity|].
  intros (session & w' & Hnew).
  vm_compute in Hnew. discriminate Hnew.
Qed.

(** An unsaved session is saved with the defaults. *)
Lemma Save_identifier_witness :
  ∃ session1 rw1 err1 w1,
    Save Fixtures.store (Request.mk []) [] Fixtures.unsaved
         (Fixtures.world (Fixtures.service ∅)) = Done (session1, rw1, err1) w1 ∧
    (Session.ID Fixtures.unsaved = "" ∧ 0 < sessions.MaxAge Fixtures.defaults ->
       ∃ key w0, GenerateRandomKey 32 (Fixtures.world (Fixtures.service ∅)) = Done key w0 ∧
                 Session.ID session1 = base32RawStdEncoding key ∧
                 entropy w1 = entropy w0) ∧
    (¬ (Session.ID Fixtures.unsaved = "" ∧ 0 < sessions.MaxAge Fixtures.defaults) ->
       Session.ID session1 = "" ∧
       entropy w1 = entropy (Fixtures.world (Fixtures.service ∅))) ∧
    (Session.ID Fixtures.unsaved ≠ "" ->
       ∀ r2, ∃ session2 rw2 err2 w2,
         Save Fixtures.store r2 rw1 session1 w1 = Done (session2, rw2, err2) w2 ∧
         Session.ID session2 = "" ∧
         entropy w2 = entropy (Fixtures.world (Fixtures.service ∅))).
Proof.
  exact (Save_identifier Fixtures.store (Request.mk []) [] Fixtures.unsaved
           (Fixtures.world (Fixtures.service ∅)) 2%positive Fixtures.defaults
           eq_refl eq_refl).
Defined.

(** The identifier minted from the thirty-two bytes the random source gives,
    and kept by the next [Save]. *)
Example Save_mints_then_keeps :
  ∃ session1 rw1 w1 session2 rw2 w2,
    Save Fixtures.store (Request.mk []) [] Fixtures.unsaved
         (Fixtures.world (Fixtures.service ∅)) = Done (session1, rw1, None) w1 ∧
    Session.ID session1 = "GAYTEMZUGU3DOOBZMFRGGZDFMYYDCMRTGQ2TMNZYHFQWEY3EMVTA" ∧
    Save Fixtures.store (Request.mk []) [] session1 w1 = Done (session2, rw2, None) w2 ∧
    Session.ID session2 = Session.ID session1 ∧
    entropy w1 = [] ∧ entropy w2 = [].
Proof.
  eexists _, _, _, _, _, _.
  split; [vm_compute; reflexivity|]. split; [reflexivity|].
  split; [vm_compute; reflexivity|]. repeat split.
Qed.

Lemma save_expiration_witness :
  ∃ input,
    PutItemInput.TableName input = "sessions" ∧
    PutItemInput.Item input !! "uuid" = Some (AttributeValueMemberS "ABC") ∧
    PutItemInput.Item input !! "expiration" = Some (AttributeValueMemberN "1700003600") ∧
    PutItemInput.Item input !! "data" = Some (AttributeValueMemberS "k1:sid:hello=world;") ∧
    Unix (1700000000123456789 + expiryTime) = 1700003600 ∧
    ∀ h p,
      ∃ w',
        save Fixtures.store (Session.setOptions Fixtures.hello p)
             (mkWorld h 1700000000123456789
                      (entropy (Fixtures.world (Fixtures.service ∅)))
                      (Fixtures.service ∅) [])
          = Done (PutItem input (Fixtures.service ∅)).1 w' ∧
        trace w' = [EvPutItem input] ∧
        backend w' = (PutItem input (Fixtures.service ∅)).2 ∧
        heap w' = h.
Proof.
  assert (EncodeMulti (clock (Fixtures.world (Fixtures.service ∅)))
            (Session.name Fixtures.hello) (PValues (Session.Values Fixtures.hello))
            (DdbStore.Codecs Fixtures.store) = inr "k1:sid:hello=world;") as Henc
    by (vm_compute; reflexivity).
  exact (save_expiration Fixtures.store Fixtures.hello
           (Fixtures.world (Fixtures.service ∅)) "k1:sid:hello=world;" Henc).
Defined.

(** With a limit of eight bytes no token fits. *)
Lemma Save_encoding_failure_witness :
  ∃ session' w',
    Save (MaxLength Fixtures.store 8) (Request.mk []) [] Fixtures.hello
         (Fixtures.world (Fixtures.service ∅))
      = Done (session', [], Some (MultiError [PlainCodec.errTooLong])) w' ∧
    trace w' = [] ∧
    backend w' = Fixtures.service ∅ ∧
    heap w' = heap (Fixtures.world (Fixtures.service ∅)).
Proof.
  assert (0 < sessions.MaxAge Fixtures.defaults) as Hage by (vm_compute; reflexivity).
  assert (EncodeMulti (clock (Fixtures.world (Fixtures.service ∅)))
            (Session.name Fixtures.hello) (PValues (Session.Values Fixtures.hello))
            (DdbStore.Codecs (MaxLength Fixtures.store 8))
          = inl (MultiError [PlainCodec.errTooLong])) as Henc
    by (vm_compute; reflexivity).
  exact (Save_encoding_failure (MaxLength Fixtures.store 8) (Request.mk []) []
           Fixtures.hello (Fixtures.world (Fixtures.service ∅)) 2%positive
           Fixtures.defaults (MultiError [PlainCodec.errTooLong])
           eq_refl eq_refl Hage Henc).
Defined.

(** Construction against a service that has no table yet. *)
Lemma NewDdbStore_provisions_witness :
  ∃ ds w0 err w',
    DdbStore.tableName ds = "sessions" ∧
    backend w0 = MemDB.mk ∅ [] ∧ trace w0 = [] ∧ clock w0 = 1700000000123456789 ∧
    ensureTable ds w0 = Done err w' ∧
    NewDdbStore "us-east-2" "sessions" [] (Fixtures.world (MemDB.mk ∅ []))
      = Done (match err with None => Some ds | Some _ => None end, err) w' ∧
    err = None ∧
    backend w' = Fixtures.service ∅ ∧
    clock w' = 1700000010123456789 ∧
    trace w' =
      [EvDescribeTable (DescribeTableInput.mk "sessions");
       EvCreateTable (CreateTableInput.mk "sessions"
         [AttributeDefinition.mk "uuid" ScalarAttributeTypeS]
         [KeySchemaElement.mk "uuid" KeyTypeHash]
         BillingModePayPerRequest);
       EvSleep 10000000000;
       EvUpdateTimeToLive (UpdateTimeToLiveInput.mk "sessions"
         (TimeToLiveSpecification.mk true "expiration"))].
Proof.
  pose proof (NewDdbStore_provisions "us-east-2" "sessions" []
                (Fixtures.world (MemDB.mk ∅ [])) eq_refl) as W.
  vm_compute in W. vm_compute. exact W.
Defined.

(** A record whose [data] is a number. *)
Lemma load_untyped_data_panics_witness :
  (∃ w',
      load Fixtures.store Fixtures.hello
           (Fixtures.world (Fixtures.service (<["ABC" := Fixtures.foreignRecord]> ∅)))
        = Panicked TypeAssertion w' ∧
      trace w' = [EvGetItem (GetItemInput.mk "sessions"
                    (<["uuid" := AttributeValueMemberS "ABC"]> ∅))]) ∧
  ∀ r c ls o,
    DdbStore.Options Fixtures.store = Some ls ->
    heap (Fixtures.world (Fixtures.service (<["ABC" := Fixtures.foreignRecord]> ∅))) !! ls
      = Some o ->
    Request_Cookie r "sid" = inr c ->
    DecodeMultiString 1700000000123456789 "sid" c (DdbStore.Codecs Fixtures.store)
      = inr "ABC" ->
    ∃ w',
      New Fixtures.store r "sid"
          (Fixtures.world (Fixtures.service (<["ABC" := Fixtures.foreignRecord]> ∅)))
        = Panicked TypeAssertion w'.
Proof.
  exact (load_untyped_data_panics Fixtures.store Fixtures.hello
           (Fixtures.world (Fixtures.service (<["ABC" := Fixtures.foreignRecord]> ∅)))
           Fixtures.foreignRecord
           (Fixtures.service (<["ABC" := Fixtures.foreignRecord]> ∅)) eq_refl).
Defined.

(** The session loaded from the record of "ABC". *)
Lemma New_options_are_a_copy_witness :
  ∃ session err w',
    New Fixtures.store (Fixtures.requestFor "sid" "ABC") "sid"
        (Fixtures.world (Fixtures.service (<["ABC" := Fixtures.helloRecord]> ∅)))
      = Done (session, err) w' ∧
    Session.Values session = <["hello" := "world"]> ∅ ∧
    ∃ l,
      Session.Options session = Some l ∧
      (l ∉ dom (heap (Fixtures.world (Fixtures.service ∅)))) ∧ (l ≠ 1%positive) ∧
      heap w' = <[l := Fixtures.defaults]> (heap (Fixtures.world (Fixtures.service ∅))) ∧
      (∀ age, ∃ w1,
          setSessionMaxAge session age w' = Done tt w1 ∧
          heap w1 !! l = Some (sessions.setMaxAge Fixtures.defaults age) ∧
          heap w1 !! 1%positive = Some Fixtures.defaults ∧
          ∀ l0, l0 ≠ l -> heap w1 !! l0 = heap (Fixtures.world (Fixtures.service ∅)) !! l0) ∧
      (∀ age, ∃ s1 w1,
          MaxAge Fixtures.store age w' = Done s1 w1 ∧
          heap w1 !! 1%positive = Some (sessions.setMaxAge Fixtures.defaults age) ∧
          heap w1 !! l = Some Fixtures.defaults ∧
          ∀ l0, l0 ≠ 1%positive -> heap w1 !! l0 = heap w' !! l0) ∧
      (∀ r1 rw, ∃ session1 rw1 err1 w1,
          Save Fixtures.store r1 rw session w' = Done (session1, rw1, err1) w1 ∧
          heap w1 = heap w').
Proof.
  eexists _, _, _. split; [vm_compute; reflexivity|]. split; [vm_compute; reflexivity|].
  eapply (New_options_are_a_copy Fixtures.store (Fixtures.requestFor "sid" "ABC") "sid"
            (Fixtures.world (Fixtures.service (<["ABC" := Fixtures.helloRecord]> ∅)))
            1%positive Fixtures.defaults); vm_compute; reflexivity.
Defined.

(** * Further properties of the store *)

Section Paths.
Context {B : Type} `{!Deps B}.

Implicit Types (s : DdbStore.t) (session : Session.t) (w : World B).

(** The random source always answers, and touches nothing but itself. *)
Lemma GenerateRandomKey_total (n : nat) w :
  ∃ key w0,
    GenerateRandomKey n w = Done key w0 ∧
    heap w0 = heap w ∧ clock w0 = clock w ∧
    backend w0 = backend w ∧ trace w0 = trace w.
Proof.
  unfold GenerateRandomKey. destruct (entropy w); eexists _, _; repeat split.
Qed.

(** [Save] on its erasing path, by the answer of [DeleteItem]. *)
Lemma Save_erase_cases s r rw session w l o :
  Session.Options session = Some l -> heap w !! l = Some o ->
  sessions.MaxAge o ≤ 0 ->
  Save s r rw session w =
    let input := DeleteItemInput.mk (DdbStore.tableName s)
      (<[dynamodbUuidColumnName := AttributeValueMemberS (Session.ID session)]> ∅) in
    let w' := mkWorld (heap w) (clock w) (entropy w) (DeleteItem input (backend w)).2
                      (trace w ++ [EvDeleteItem input]) in
    match (DeleteItem input (backend w)).1 with
    | Some err => Done (session, rw, Some err) w'
    | None =>
        Done (session, SetCookie rw (NewCookie (clock w) (Session.name session) "" o), None) w'
    end.
Proof.
  intros Ho Hh Hage. unfold Save, erase. run. rewrite Ho, Hh. cbn.
  rewrite decide_True by exact Hage.
  destruct (DeleteItem _ _) as [[err|] b]; cbn; [|rewrite Hh]; reflexivity.
Qed.

(** What remains of [Save] once the identifier is there. *)
Lemma Save_saving_rest s rw session w l o :
  Session.Options session = Some l -> heap w !! l = Some o ->
  (err ← save s session;
   match err with
   | Some err => mret (session, rw, Some err)
   | None =>
       now ← Now;
       match EncodeMulti now (Session.name session) (PString (Session.ID session))
                         (DdbStore.Codecs s) with
       | inl err => mret (session, rw, Some err)
       | inr encoded =>
           opts ← deref (Session.Options session);
           now ← Now;
           mret (session,
                 SetCookie rw (NewCookie now (Session.name session) encoded opts), None)
       end
   end) w =
    match EncodeMulti (clock w) (Session.name session) (PValues (Session.Values session))
                      (DdbStore.Codecs s) with
    | inl err => Done (session, rw, Some err) w
    | inr encoded =>
        let input := PutItemInput.mk (DdbStore.tableName s)
          (<[dynamodbUuidColumnName := AttributeValueMemberS (Session.ID session)]>
           (<[dynamodbExpirationColumnName :=
                AttributeValueMemberN (pretty (Unix (clock w + expiryTime)))]>
            (<[dynamodbDataColumnName := AttributeValueMemberS encoded]> ∅))) in
        let w2 := mkWorld (heap w) (clock w) (entropy w) (PutItem input (backend w)).2
                          (trace w ++ [EvPutItem input]) in
        match (PutItem input (backend w)).1 with
        | Some err => Done (session, rw, Some err) w2
        | None =>
            match EncodeMulti (clock w) (Session.name session)
                              (PString (Session.ID session)) (DdbStore.Codecs s) with
            | inl err => Done (session, rw, Some err) w2
            | inr token =>
                Done (session,
                      SetCookie rw (NewCookie (clock w) (Session.name session) token o),
                      None) w2
            end
        end
    end.
Proof.
  intros Ho Hh. run. rewrite save_cases.
  destruct (EncodeMulti _ _ (PValues _) _) as [err|encoded]; [reflexivity|].
  cbv zeta. destruct (PutItem _ _) as [[err|] b]; cbn [fst snd]; [reflexivity|].
  cbn [clock heap].
  destruct (EncodeMulti _ _ (PString _) _) as [err|token]; [reflexivity|].
  rewrite Ho. cbn [heap]. rewrite Hh. reflexivity.
Qed.

(** [Save] on its saving path, by the results of the two encodings and the
    answer of [PutItem].  [session1] and [w1] are the session and the world
    after the identifier has been minted, if it had to be. *)
Lemma Save_saving_cases s r rw session w l o session1 w1 :
  Session.Options session = Some l -> heap w !! l = Some o ->
  0 < sessions.MaxAge o ->
  (if decide (Session.ID session = "")
   then ∃ key, GenerateRandomKey 32 w = Done key w1 ∧
               session1 = Session.setID session (base32RawStdEncoding key)
   else session1 = session ∧ w1 = w) ->
  Save s r rw session w =
    match EncodeMulti (clock w) (Session.name session) (PValues (Session.Values session))
                      (DdbStore.Codecs s) with
    | inl err => Done (session1, rw, Some err) w1
    | inr encoded =>
        let input := PutItemInput.mk (DdbStore.tableName s)
          (<[dynamodbUuidColumnName := AttributeValueMemberS (Session.ID session1)]>
           (<[dynamodbExpirationColumnName :=
                AttributeValueMemberN (pretty (Unix (clock w + expiryTime)))]>
            (<[dynamodbDataColumnName := AttributeValueMemberS encoded]> ∅))) in
        let w2 := mkWorld (heap w) (clock w) (entropy w1) (PutItem input (backend w)).2
                          (trace w ++ [EvPutItem input]) in
        match (PutItem input (backend w)).1 with
        | Some err => Done (session1, rw, Some err) w2
        | None =>
            match EncodeMulti (clock w) (Session.name session)
                              (PString (Session.ID session1)) (DdbStore.Codecs s) with
            | inl err => Done (session1, rw, Some err) w2
            | inr token =>
                Done (session1,
                      SetCookie rw (NewCookie (clock w) (Session.name session) token o),
                      None) w2
            end
        end
    end.
Proof.
  intros Ho Hh Hage Hmint. unfold Save.
  change (Save s r rw session w) with (Save s r rw session w).
  unfold mbind at 1, M_bind at 1. unfold deref at 1. rewrite Ho, Hh.
  rewrite decide_False by lia.
  unfold mbind at 1, M_bind at 1.
  destruct (decide (Session.ID session = "")) as [Hid|Hid].
  - destruct Hmint as (key & Hkey & ->).
    destruct (GenerateRandomKey_total 32 w) as (key' & w0 & Hkey' & Hheap & Hclock & Hback & Htrace).
    rewrite Hkey in Hkey'. injection Hkey' as <- <-.
    unfold mbind at 1, M_bind at 1. rewrite Hkey. unfold mret at 1, M_ret at 1.
    rewrite (Save_saving_rest s rw _ w1 l o); [|exact Ho|congruence].
    rewrite Hheap, Hclock, Hback, Htrace. reflexivity.
  - destruct Hmint as [-> ->]. unfold mret at 1, M_ret at 1.
    apply (Save_saving_rest s rw session w l o Ho Hh).
Qed.

End Paths.

Section Access.
Context {B : Type} `{!Deps B}.

Implicit Types (s : DdbStore.t) (session : Session.t) (w : World B).

(** Cookies of other names are passed over. *)
Lemma lookupCookie_absent cs name :
  (∀ v, (name, v) ∉ cs) -> lookupCookie cs name = inl ErrNoCookie.
Proof.
  induction cs as [|[n v] cs IH]; intros Hnot; [reflexivity|].
  cbn. destruct (decide (n = name)) as [->|Hne].
  - exfalso. apply (Hnot v). left.
  - apply IH. intros v' Hin. apply (Hnot v'). right. exact Hin.
Qed.

(** X1: a request that carries no cookie of the session's name, whatever
    other cookies it carries, gets the Fresh session: new, without values
    and identifier, with a copy of the defaults, and no error.  The codecs
    and the service are not consulted. *)
Theorem New_without_cookie s r name w ls o :
  DdbStore.Options s = Some ls -> heap w !! ls = Some o ->
  (∀ v, (name, v) ∉ Request.Cookies r) ->
  ∃ session w' l,
    New s r name w = Done (session, None) w' ∧
    session = Session.mk "" ∅ (Some l) true name ∧
    heap w' !! l = Some o ∧
    trace w' = trace w ∧ backend w' = backend w ∧
    ∀ codecs, New (DdbStore.setCodecs s codecs) r name w = Done (session, None) w'.
Proof.
  intros Hs Hh Hnot.
  pose proof (lookupCookie_absent _ _ Hnot) as Hc.
  eexists _, _, _. split; [apply (New_no_cookie s r name w ls o Hs Hh Hc)|].
  split; [reflexivity|]. split; [apply lookup_insert_eq|].
  split; [reflexivity|]. split; [reflexivity|].
  intros codecs. apply (New_no_cookie _ r name w ls o); assumption.
Qed.

(** [New] with a cookie that decodes, up to the answer of [load]. *)
Lemma New_decoded s r name w ls o c id :
  DdbStore.Options s = Some ls -> heap w !! ls = Some o ->
  Request_Cookie r name = inr c ->
  DecodeMultiString (clock w) name c (DdbStore.Codecs s) = inr id ->
  New s r name w =
    match load s (Session.mk id ∅ (Some (fresh (dom (heap w)))) true name)
               (mkWorld (<[fresh (dom (heap w)) := o]> (heap w)) (clock w) (entropy w)
                        (backend w) (trace w)) with
    | Done (session, None) w' => Done (Session.setIsNew session false, None) w'
    | Done (session, Some err) w' => Done (session, Some err) w'
    | Panicked p w' => Panicked p w'
    end.
Proof.
  intros Hs Hh Hc Hd. unfold New. run. rewrite Hs, Hh, Hc. cbn [clock].
  rewrite Hd. unfold NewSession, Session.setOptions, Session.setIsNew, Session.setID.
  cbn [Session.ID Session.Values Session.Options Session.IsNew Session.name].
  destruct (load _ _ _) as [[session [err|]] w'|p w']; reflexivity.
Qed.

(** X2: the Loaded state.  When the cookie decodes to an identifier, the
    service answers with an item and the item's [data] string decodes,
    [New] returns without error the session with that identifier and those
    values, not new.  No other attribute of the item is looked at: a record
    the service still returns after its [expiration] is loaded like any
    other. *)
Theorem New_loaded s r name w ls o c id item b encoded values :
  DdbStore.Options s = Some ls -> heap w !! ls = Some o ->
  Request_Cookie r name = inr c ->
  DecodeMultiString (clock w) name c (DdbStore.Codecs s) = inr id ->
  GetItem (GetItemInput.mk (DdbStore.tableName s)
             (<[dynamodbUuidColumnName := AttributeValueMemberS id]> ∅)) (backend w)
    = (Some (GetItemOutput.mk (Some item)), None, b) ->
  item !! "data" = Some (AttributeValueMemberS encoded) ->
  DecodeMultiValues (clock w) name encoded (DdbStore.Codecs s) = inr values ->
  ∃ session w',
    New s r name w = Done (session, None) w' ∧
    Session.IsNew session = false ∧
    Session.ID session = id ∧
    Session.Values session = values ∧
    Session.name session = name ∧
    backend w' = b ∧
    trace w' = trace w ++ [EvGetItem (GetItemInput.mk (DdbStore.tableName s)
                 (<[dynamodbUuidColumnName := AttributeValueMemberS id]> ∅))].
Proof.
  intros Hs Hh Hc Hd Hg Hdata Hv.
  rewrite (New_decoded s r name w ls o c id Hs Hh Hc Hd).
  match goal with
  | |- context [load s ?session1 ?w1] =>
      pose proof (load_cases s session1 w1) as Hl; fields Hl
  end.
  rewrite Hg in Hl. cbn [GetItemOutput.Item] in Hl. rewrite Hdata, Hv in Hl.
  rewrite Hl. eexists _, _. split; [reflexivity|].
  cbn. repeat split. apply (right_id_L ∅ (∪)).
Qed.

(** X3: when the cookie decodes but the stored payload does not, [New]
    returns the payload's decode error with a session that is still new
    and has no values, but carries the cookie's identifier. *)
Theorem New_payload_undecodable s r name w ls o c id item b encoded err :
  DdbStore.Options s = Some ls -> heap w !! ls = Some o ->
  Request_Cookie r name = inr c ->
  DecodeMultiString (clock w) name c (DdbStore.Codecs s) = inr id ->
  GetItem (GetItemInput.mk (DdbStore.tableName s)
             (<[dynamodbUuidColumnName := AttributeValueMemberS id]> ∅)) (backend w)
    = (Some (GetItemOutput.mk (Some item)), None, b) ->
  item !! "data" = Some (AttributeValueMemberS encoded) ->
  DecodeMultiValues (clock w) name encoded (DdbStore.Codecs s) = inl err ->
  ∃ session w',
    New s r name w = Done (session, Some err) w' ∧
    Session.IsNew session = true ∧
    Session.ID session = id ∧
    Session.Values session = ∅.
Proof.
  intros Hs Hh Hc Hd Hg Hdata Hv.
  rewrite (New_decoded s r name w ls o c id Hs Hh Hc Hd).
  match goal with
  | |- context [load s ?session1 ?w1] =>
      pose proof (load_cases s session1 w1) as Hl; fields Hl
  end.
  rewrite Hg in Hl. cbn [GetItemOutput.Item] in Hl. rewrite Hdata, Hv in Hl.
  rewrite Hl. eexists _, _. repeat split.
Qed.

(** X4: whatever the request and however it ends, [New] asks the service
    at most one thing, a get in the store's table; it never writes.  It
    leaves the clock, the random source and every existing options cell as
    they were. *)
Theorem New_backend_access s r name w :
  match New s r name w with
  | Done _ w' | Panicked _ w' =>
      (trace w' = trace w ∧ backend w' = backend w ∨
       ∃ id, let input := GetItemInput.mk (DdbStore.tableName s)
                 (<[dynamodbUuidColumnName := AttributeValueMemberS id]> ∅) in
             trace w' = trace w ++ [EvGetItem input] ∧
             backend w' = (GetItem input (backend w)).2) ∧
      clock w' = clock w ∧ entropy w' = entropy w ∧
      ∀ l, l ∈ dom (heap w) -> heap w' !! l = heap w !! l
  end.
Proof.
  assert (∀ o l, l ∈ dom (heap w) ->
            <[fresh (dom (heap w)) := o]> (heap w) !! l = heap w !! l) as Hframe.
  { intros o l Hl. apply lookup_insert_ne. intros <-. exact (is_fresh _ Hl). }
  destruct (DdbStore.Options s) as [ls|] eqn:Hs;
    [destruct (heap w !! ls) as [o|] eqn:Hh|].
  2,3: unfold New; run; rewrite Hs, ?Hh; cbn; (split; [left; done|done]).
  destruct (Request_Cookie r name) as [e|c] eqn:Hc.
  { unfold New. run. rewrite Hs, Hh, Hc. cbn.
    split; [left; done|]. split; [done|]. split; [done|]. apply Hframe. }
  destruct (DecodeMultiString (clock w) name c (DdbStore.Codecs s)) as [e|id] eqn:Hd.
  { unfold New. run. rewrite Hs, Hh, Hc. cbn. rewrite Hd. cbn.
    split; [left; done|]. split; [done|]. split; [done|]. apply Hframe. }
  rewrite (New_decoded s r name w ls o c id Hs Hh Hc Hd).
  match goal with
  | |- context [load s ?session1 ?w1] =>
      pose proof (load_cases s session1 w1) as Hl; fields Hl
  end.
  destruct (GetItem _ (backend w)) as [[output err] b] eqn:Hg.
  rewrite Hl. clear Hl.
  assert (∀ w', trace w' = trace w ++ [EvGetItem (GetItemInput.mk (DdbStore.tableName s)
                   (<[dynamodbUuidColumnName := AttributeValueMemberS id]> ∅))] ->
                backend w' = b ->
                trace w' = trace w ∧ backend w' = backend w ∨
                ∃ id, let input := GetItemInput.mk (DdbStore.tableName s)
                          (<[dynamodbUuidColumnName := AttributeValueMemberS id]> ∅) in
                      trace w' = trace w ++ [EvGetItem input] ∧
                      backend w' = (GetItem input (backend w)).2) as Hone.
  { intros w' Ht Hb. right. exists id. cbv zeta. rewrite Hg. split; assumption. }
  destruct output as [[[item|]]|]; cbn [GetItemOutput.Item].
  - destruct err as [err|].
    + split; [apply Hone; reflexivity|]. split; [done|]. split; [done|]. apply Hframe.
    + destruct (item !! "data") as [[]|];
        try (split; [apply Hone; reflexivity|]; split; [done|]; split; [done|]; apply Hframe).
      destruct (DecodeMultiValues _ _ _ _);
        (split; [apply Hone; reflexivity|]; split; [done|]; split; [done|]; apply Hframe).
  - split; [apply Hone; reflexivity|]. split; [done|]. split; [done|]. apply Hframe.
  - split; [apply Hone; reflexivity|]. split; [done|]. split; [done|]. apply Hframe.
Qed.

End Access.

(** ** Identifiers *)

(** Every character [base32RawStdEncoding] writes is a letter A to Z or a
    digit 2 to 7. *)
Lemma quantum_alphabet b4 b3 b2 b1 b0 : In (quantum b4 b3 b2 b1 b0) encodeStd.
Proof.
  destruct b4, b3, b2, b1, b0; vm_compute; tauto.
Qed.

Lemma quanta_spec (n : nat) : ∀ bits : list bool,
  (length bits ≤ n)%nat ->
  Forall (λ c, In c encodeStd) (quanta bits) ∧
  (5 * length (quanta bits) = length bits + (5 - length bits `mod` 5) `mod` 5)%nat.
Proof.
  induction n as [|n IH]; intros bits Hn.
  - destruct bits; [|cbn in Hn; lia]. split; [constructor|reflexivity].
  - destruct bits as [|b4 [|b3 [|b2 [|b1 [|b0 rest]]]]];
      try (split; [cbn [quanta]; constructor; [apply quantum_alphabet|constructor]
                  |reflexivity]);
      try (split; [constructor|reflexivity]).
    destruct (IH rest) as [Ha Hl]; [cbn in Hn; lia|].
    split; [constructor; [apply quantum_alphabet|exact Ha]|].
    change (quanta (b4 :: b3 :: b2 :: b1 :: b0 :: rest))
      with (quantum b4 b3 b2 b1 b0 :: quanta rest).
    cbn [length].
    replace (S (S (S (S (S (length rest)))))) with (length rest + 1 * 5)%nat by lia.
    rewrite Nat.Div0.mod_add. lia.
Qed.

Lemma byteBits_concat_length (src : list Byte.byte) :
  length (concat (map byteBits src)) = (8 * length src)%nat.
Proof.
  induction src as [|b src IH]; [reflexivity|].
  cbn [map concat]. rewrite length_app, IH. cbn. lia.
Qed.

Lemma string_of_list_ascii_length (l : list ascii) :
  String.length (string_of_list_ascii l) = length l.
Proof. induction l; cbn; congruence. Qed.

(** The identifier made of thirty-two bytes: fifty-two characters of the
    alphabet. *)
Lemma base32_of_32_bytes (key : list Byte.byte) :
  length key = 32%nat ->
  String.length (base32RawStdEncoding key) = 52%nat ∧
  Forall (λ c, In c encodeStd) (list_ascii_of_string (base32RawStdEncoding key)).
Proof.
  intros Hlen. unfold base32RawStdEncoding.
  destruct (quanta_spec _ (concat (map byteBits key)) (le_n _)) as [Ha Hl].
  rewrite byteBits_concat_length, Hlen in Hl.
  rewrite string_of_list_ascii_length, list_ascii_of_string_of_list_ascii.
  split; [|exact Ha]. cbn in Hl. lia.
Qed.

Section Saving.
Context {B : Type} `{!Deps B}.

Implicit Types (s : DdbStore.t) (session : Session.t) (w : World B).

(** The session and the world after the minting step of [Save]. *)
Lemma mint_exists session w :
  ∃ session1 w1,
    (if decide (Session.ID session = "")
     then ∃ key, GenerateRandomKey 32 w = Done key w1 ∧
                 session1 = Session.setID session (base32RawStdEncoding key)
     else session1 = session ∧ w1 = w) ∧
    heap w1 = heap w ∧ clock w1 = clock w ∧
    backend w1 = backend w ∧ trace w1 = trace w ∧
    Session.name session1 = Session.name session ∧
    Session.Values session1 = Session.Values session ∧
    Session.Options session1 = Session.Options session.
Proof.
  destruct (decide (Session.ID session = "")) as [Hid|Hid].
  - destruct (GenerateRandomKey_total 32 w) as (key & w0 & Hkey & Hh & Hc & Hb & Ht).
    exists (Session.setID session (base32RawStdEncoding key)), w0.
    split; [exists key; split; [exact Hkey|reflexivity]|]. repeat split; assumption.
  - exists session, w. repeat split.
Qed.

(** X5: however it ends, [Save] asks the service at most one thing, a
    delete or a put; it never reads.  It writes no options cell and does
    not move the clock. *)
Theorem Save_backend_access s r rw session w :
  match Save s r rw session w with
  | Done _ w' | Panicked _ w' =>
      heap w' = heap w ∧ clock w' = clock w ∧
      (trace w' = trace w ∧ backend w' = backend w ∨
       (∃ input, trace w' = trace w ++ [EvDeleteItem input] ∧
                 backend w' = (DeleteItem input (backend w)).2) ∨
       (∃ input, trace w' = trace w ++ [EvPutItem input] ∧
                 backend w' = (PutItem input (backend w)).2))
  end.
Proof.
  destruct (Session.Options session) as [l|] eqn:Ho;
    [destruct (heap w !! l) as [o|] eqn:Hh|].
  2,3: unfold Save; run; rewrite Ho, ?Hh; cbn; (split; [done|split; [done|left; done]]).
  destruct (decide (sessions.MaxAge o ≤ 0)) as [Hle|Hgt].
  - rewrite (Save_erase_cases s r rw session w l o Ho Hh Hle). cbv zeta.
    destruct (DeleteItem _ _).1;
      (split; [done|split; [done|right; left; eexists; split; reflexivity]]).
  - destruct (mint_exists session w)
      as (session1 & w1 & Hmint & Hheap & Hclock & Hback & Htrace & _).
    rewrite (Save_saving_cases s r rw session w l o session1 w1 Ho Hh ltac:(lia) Hmint).
    destruct (EncodeMulti _ _ (PValues _) _) as [err|encoded].
    { split; [done|split; [done|left; split; assumption]]. }
    cbv zeta. destruct (PutItem _ _).1;
      [|destruct (EncodeMulti _ _ (PString _) _)];
      (split; [done|split; [done|right; right; eexists; split; reflexivity]]).
Qed.

(** With a positive max-age the cookie expires that many seconds after
    the clock's time. *)
Lemma NewCookie_positive now name value o :
  0 < sessions.MaxAge o ->
  NewCookie now name value o =
    Cookie.mk name value (sessions.Path o) (sessions.Domain o)
      (Some (now + wrap64 (sessions.MaxAge o * Second))) (sessions.MaxAge o)
      (sessions.Secure o) (sessions.HttpOnly o) (sessions.SameSite o).
Proof.
  intros Hpos. unfold NewCookie, newCookieFromOptions. cbv zeta.
  rewrite decide_True by exact Hpos. reflexivity.
Qed.

(** X6: the saving path after the values are encoded.  [Save] puts the
    record (identifier, expiration, encoded values) and only then encodes
    the identifier for the cookie.  A failing put is returned as it is
    and no cookie is set.  If the identifier does not encode, the error is
    returned and no cookie is set, but the record has been written.
    Otherwise the response gets one cookie of the session's name whose
    value is the token and whose attributes are the session's options. *)
Theorem Save_saving_path s r rw session w l o encoded :
  Session.Options session = Some l -> heap w !! l = Some o ->
  0 < sessions.MaxAge o ->
  EncodeMulti (clock w) (Session.name session) (PValues (Session.Values session))
              (DdbStore.Codecs s) = inr encoded ->
  ∃ session1 input w',
    (Session.ID session ≠ "" -> session1 = session) ∧
    Session.Values session1 = Session.Values session ∧
    PutItemInput.TableName input = DdbStore.tableName s ∧
    PutItemInput.Item input !! dynamodbUuidColumnName
      = Some (AttributeValueMemberS (Session.ID session1)) ∧
    PutItemInput.Item input !! dynamodbDataColumnName
      = Some (AttributeValueMemberS encoded) ∧
    trace w' = trace w ++ [EvPutItem input] ∧
    backend w' = (PutItem input (backend w)).2 ∧
    match (PutItem input (backend w)).1 with
    | Some err => Save s r rw session w = Done (session1, rw, Some err) w'
    | None =>
        match EncodeMulti (clock w) (Session.name session)
                          (PString (Session.ID session1)) (DdbStore.Codecs s) with
        | inl err => Save s r rw session w = Done (session1, rw, Some err) w'
        | inr token =>
            Save s r rw session w
              = Done (session1,
                      rw ++ [Cookie.mk (Session.name session) token
                               (sessions.Path o) (sessions.Domain o)
                               (Some (clock w + wrap64 (sessions.MaxAge o * Second)))
                               (sessions.MaxAge o)
                               (sessions.Secure o) (sessions.HttpOnly o)
                               (sessions.SameSite o)],
                      None) w'
        end
    end.
Proof.
  intros Ho Hh Hage Henc.
  destruct (mint_exists session w)
    as (session1 & w1 & Hmint & Hheap & Hclock & Hback & Htrace & Hname & Hvalues & _).
  rewrite (Save_saving_cases s r rw session w l o session1 w1 Ho Hh Hage Hmint).
  rewrite Henc. cbv zeta.
  set (input := PutItemInput.mk (DdbStore.tableName s)
    (<[dynamodbUuidColumnName := AttributeValueMemberS (Session.ID session1)]>
     (<[dynamodbExpirationColumnName :=
          AttributeValueMemberN (pretty (Unix (clock w + expiryTime)))]>
      (<[dynamodbDataColumnName := AttributeValueMemberS encoded]> ∅)))).
  exists session1, input,
    (mkWorld (heap w) (clock w) (entropy w1) (PutItem input (backend w)).2
             (trace w ++ [EvPutItem input])).
  subst input. cbn [PutItemInput.TableName PutItemInput.Item trace backend].
  split.
  { intros Hid. rewrite decide_False in Hmint by exact Hid. apply Hmint. }
  split; [exact Hvalues|]. split; [reflexivity|].
  split; [apply lookup_insert_eq|].
  split; [rewrite !lookup_insert_ne by done; apply lookup_insert_eq|].
  split; [reflexivity|]. split; [reflexivity|].
  destruct (PutItem _ _).1; [reflexivity|].
  destruct (EncodeMulti _ _ (PString _) _); [reflexivity|].
  rewrite (NewCookie_positive _ _ _ o Hage). reflexivity.
Qed.

(** X7: erasing needs neither the codecs nor the values nor the random
    source: with max-age zero or negative, [Save] gives the same result
    for any list of codecs (the empty one too) and any values the session
    holds, sends the delete for the identifier the session has, be it
    empty, and never mints. *)
Theorem Save_erase_ignores_codecs s r rw session w l o codecs values :
  Session.Options session = Some l -> heap w !! l = Some o ->
  sessions.MaxAge o ≤ 0 ->
  ∃ rw1 err w',
    Save s r rw session w = Done (session, rw1, err) w' ∧
    Save (DdbStore.setCodecs s codecs) r rw (Session.setValues session values) w
      = Done (Session.setValues session values, rw1, err) w' ∧
    entropy w' = entropy w ∧
    trace w' = trace w ++ [EvDeleteItem (DeleteItemInput.mk (DdbStore.tableName s)
                 (<[dynamodbUuidColumnName := AttributeValueMemberS (Session.ID session)]> ∅))].
Proof.
  intros Ho Hh Hage.
  rewrite (Save_erase_cases s r rw session w l o Ho Hh Hage).
  rewrite (Save_erase_cases (DdbStore.setCodecs s codecs) r rw
             (Session.setValues session values) w l o Ho Hh Hage).
  cbv zeta. cbn [DdbStore.setCodecs DdbStore.tableName Session.setValues
                 Session.ID Session.name].
  destruct (DeleteItem _ _).1; eexists _, _, _; repeat split.
Qed.

(** X8: the first [Save] of a session without identifier, when the random
    source delivers its thirty-two bytes, consumes them and gives the
    session an identifier of fifty-two characters, each a letter A to Z or
    a digit 2 to 7; every later [Save] keeps that identifier and leaves
    the random source alone. *)
Theorem Save_minted_identifier s r rw session w l o key rest :
  Session.Options session = Some l -> heap w !! l = Some o ->
  0 < sessions.MaxAge o ->
  Session.ID session = "" ->
  entropy w = key :: rest -> length key = 32%nat ->
  ∃ session1 rw1 err1 w1,
    Save s r rw session w = Done (session1, rw1, err1) w1 ∧
    Session.ID session1 = base32RawStdEncoding key ∧
    String.length (Session.ID session1) = 52%nat ∧
    Forall (λ c, In c encodeStd) (list_ascii_of_string (Session.ID session1)) ∧
    entropy w1 = rest ∧
    ∀ r2, ∃ session2 rw2 err2 w2,
      Save s r2 rw1 session1 w1 = Done (session2, rw2, err2) w2 ∧
      Session.ID session2 = Session.ID session1 ∧
      entropy w2 = rest.
Proof.
  intros Ho Hh Hage Hid Hent Hlen.
  destruct (base32_of_32_bytes key Hlen) as [H52 Halpha].
  destruct (Save_outcome s r rw session w l o Ho Hh)
    as (session1 & rw1 & err1 & w1 & HS & Hheap & Hopt & Hmint).
  rewrite decide_True in Hmint by (split; assumption).
  destruct Hmint as (key' & w0 & Hkey & Hid1 & Hent1).
  unfold GenerateRandomKey in Hkey. rewrite Hent in Hkey.
  rewrite decide_True in Hkey by exact Hlen.
  injection Hkey as <- <-. cbn [entropy] in Hent1.
  exists session1, rw1, err1, w1. split; [exact HS|].
  split; [exact Hid1|]. rewrite Hid1. split; [exact H52|]. split; [exact Halpha|].
  split; [exact Hent1|]. intros r2.
  destruct (Save_outcome s r2 rw1 session1 w1 l o)
    as (session2 & rw2 & err2 & w2 & HS2 & _ & _ & Hkeep); [congruence..|].
  assert (Session.ID session1 ≠ "") as Hne.
  { intros Hempty. rewrite Hid1 in Hempty. rewrite Hempty in H52. discriminate H52. }
  rewrite decide_False in Hkeep by tauto.
  exists session2, rw2, err2, w2. split; [exact HS2|].
  destruct Hkeep as [Hk1 Hk2]. split; [congruence|congruence].
Qed.

(** X9: the key is not checked.  When the random source fails, [Save]
    goes on with the empty identifier: the record is put under the empty
    string and the session keeps the empty identifier. *)
Theorem Save_random_failure s r rw session w l o encoded :
  Session.Options session = Some l -> heap w !! l = Some o ->
  0 < sessions.MaxAge o ->
  Session.ID session = "" ->
  (∀ key, head (entropy w) = Some key -> length key ≠ 32%nat) ->
  EncodeMulti (clock w) (Session.name session) (PValues (Session.Values session))
              (DdbStore.Codecs s) = inr encoded ->
  ∃ session1 rw1 err1 w1 input,
    Save s r rw session w = Done (session1, rw1, err1) w1 ∧
    Session.ID session1 = "" ∧
    PutItemInput.Item input !! dynamodbUuidColumnName = Some (AttributeValueMemberS "") ∧
    trace w1 = trace w ++ [EvPutItem input].
Proof.
  intros Ho Hh Hage Hid Hfail Henc.
  assert (∃ w1, GenerateRandomKey 32 w = Done [] w1) as [w1 Hkey].
  { unfold GenerateRandomKey. destruct (entropy w) as [|key rest]; [eexists; reflexivity|].
    rewrite decide_False by (apply Hfail; reflexivity). eexists; reflexivity. }
  rewrite (Save_saving_cases s r rw session w l o
             (Session.setID session (base32RawStdEncoding [])) w1 Ho Hh Hage).
  2:{ rewrite decide_True by exact Hid. exists []. split; [exact Hkey|reflexivity]. }
  rewrite Henc. cbv zeta. cbn [Session.setID Session.ID].
  change (base32RawStdEncoding []) with "".
  destruct (PutItem _ _).1;
    [|destruct (EncodeMulti _ _ (PString _) _)];
    (eexists _, _, _, _, (PutItemInput.mk _ _); split; [reflexivity|];
     split; [reflexivity|]; split; [apply lookup_insert_eq|reflexivity]).
Qed.

End Saving.

(** ** The setters and construction *)

Lemma setter_secure (f : Codec.t -> Codec.t) (P : Codec.t -> Prop) (codecs : list Codec.t) :
  (∀ c, Codec.secure c = true -> P (f c)) ->
  (∀ c, Codec.secure (f c) = Codec.secure c) ->
  Forall (λ c, Codec.secure c = true -> P c)
         (map (λ c, if Codec.secure c then f c else c) codecs).
Proof.
  intros HP Hsec. induction codecs as [|c codecs IH]; [constructor|].
  cbn [map]. constructor; [|exact IH].
  destruct (Codec.secure c) eqn:Hc; [|congruence].
  intros _. apply HP. exact Hc.
Qed.

Lemma setter_other (f : Codec.t -> Codec.t) (codecs : list Codec.t) (c : Codec.t) :
  c ∈ codecs -> Codec.secure c = false ->
  c ∈ map (λ c, if Codec.secure c then f c else c) codecs.
Proof.
  intros Hin Hc. apply list_elem_of_fmap. exists c. rewrite Hc. done.
Qed.

Section Setters.
Context {B : Type} `{!Deps B}.

Implicit Types (s : DdbStore.t) (session : Session.t) (w : World B).

(** [MaxAge] when the defaults can be read. *)
Lemma MaxAge_cases s age w ls o :
  DdbStore.Options s = Some ls -> heap w !! ls = Some o ->
  MaxAge s age w =
    Done (DdbStore.setCodecs s
            (map (λ codec, if Codec.secure codec then Codec.MaxAge codec age else codec)
                 (DdbStore.Codecs s)))
         (mkWorld (<[ls := sessions.setMaxAge o age]> (heap w)) (clock w) (entropy w)
                  (backend w) (trace w)).
Proof.
  intros Hs Hh. unfold MaxAge. run. rewrite Hs, Hh. cbn [heap]. rewrite Hh. reflexivity.
Qed.

(** X10: the store's [MaxAge] writes the age into the defaults and into
    every codec that is a [*SecureCookie], keeps the other codecs, and asks
    nothing of the service; from then on every session [New] returns has
    that max-age, with the other options as the defaults had them. *)
Theorem MaxAge_then_New s age w ls o :
  DdbStore.Options s = Some ls -> heap w !! ls = Some o ->
  ∃ s1 w1,
    MaxAge s age w = Done s1 w1 ∧
    heap w1 = <[ls := sessions.setMaxAge o age]> (heap w) ∧
    trace w1 = trace w ∧ backend w1 = backend w ∧
    DdbStore.Options s1 = Some ls ∧
    DdbStore.tableName s1 = DdbStore.tableName s ∧
    length (DdbStore.Codecs s1) = length (DdbStore.Codecs s) ∧
    Forall (λ c, Codec.secure c = true -> Codec.maxAge c = age) (DdbStore.Codecs s1) ∧
    (∀ c, c ∈ DdbStore.Codecs s -> Codec.secure c = false -> c ∈ DdbStore.Codecs s1) ∧
    ∀ r name session err w2,
      New s1 r name w1 = Done (session, err) w2 ->
      ∃ l, Session.Options session = Some l ∧
           heap w2 !! l = Some (sessions.setMaxAge o age) ∧
           sessions.MaxAge (sessions.setMaxAge o age) = age.
Proof.
  intros Hs Hh. rewrite (MaxAge_cases s age w ls o Hs Hh).
  eexists _, _. split; [reflexivity|].
  cbn [heap trace backend DdbStore.setCodecs DdbStore.Options DdbStore.tableName
       DdbStore.Codecs].
  split; [reflexivity|]. split; [reflexivity|]. split; [reflexivity|].
  split; [exact Hs|]. split; [reflexivity|]. split; [apply length_map|].
  split; [apply (setter_secure (λ c, Codec.MaxAge c age)); reflexivity|].
  split; [intros c; apply setter_other|].
  intros r name session err w2 HNew.
  match type of HNew with
  | New ?s1 r name ?w1 = _ =>
      pose proof (New_post s1 r name w1 ls (sessions.setMaxAge o age)) as HP
  end.
  cbn [heap DdbStore.setCodecs DdbStore.Options] in HP.
  specialize (HP Hs (lookup_insert_eq _ _ _)). rewrite HNew in HP.
  destruct HP as [Hopt Hheap]. eexists. split; [exact Hopt|].
  split; [rewrite Hheap; apply lookup_insert_eq|reflexivity].
Qed.

(** X11: [MaxLength] sets the limit of every codec that is a
    [*SecureCookie] and keeps the others; it leaves the defaults, the
    table name and the number of codecs alone.  The last call wins, and
    it can be swapped with [MaxAge]. *)
Theorem MaxLength_codecs s (l1 l2 : Z) :
  Forall (λ c, Codec.secure c = true -> Codec.maxLength c = l2)
         (DdbStore.Codecs (MaxLength s l2)) ∧
  (∀ c, c ∈ DdbStore.Codecs s -> Codec.secure c = false ->
        c ∈ DdbStore.Codecs (MaxLength s l2)) ∧
  length (DdbStore.Codecs (MaxLength s l2)) = length (DdbStore.Codecs s) ∧
  DdbStore.Options (MaxLength s l2) = DdbStore.Options s ∧
  DdbStore.tableName (MaxLength s l2) = DdbStore.tableName s ∧
  MaxLength (MaxLength s l1) l2 = MaxLength s l2 ∧
  ∀ age w, MaxAge (MaxLength s l2) age w =
           match MaxAge s age w with
           | Done s1 w1 => Done (MaxLength s1 l2) w1
           | Panicked p w1 => Panicked p w1
           end.
Proof.
  unfold MaxLength.
  cbn [DdbStore.setCodecs DdbStore.Codecs DdbStore.Options DdbStore.tableName
       DdbStore.region].
  split; [apply (setter_secure (λ c, Codec.MaxLength c l2)); reflexivity|].
  split; [intros c; apply setter_other|].
  split; [apply length_map|]. split; [reflexivity|]. split; [reflexivity|].
  split.
  - f_equal. rewrite map_map. apply map_ext. intros c.
    destruct (Codec.secure c) eqn:Hc; cbn; rewrite Hc; reflexivity.
  - intros age w. unfold MaxAge. run.
    cbn [DdbStore.setCodecs DdbStore.Codecs DdbStore.Options DdbStore.tableName
         DdbStore.region].
    destruct (DdbStore.Options s) as [ls|]; [|reflexivity].
    destruct (heap w !! ls) as [o|] eqn:Hh; [|reflexivity].
    cbn [heap]. rewrite Hh.
    cbn [DdbStore.setCodecs DdbStore.Codecs DdbStore.Options DdbStore.tableName
         DdbStore.region].
    f_equal. f_equal. rewrite !map_map. apply map_ext. intros c.
    destruct (Codec.secure c) eqn:Hc; cbn; rewrite Hc; reflexivity.
Qed.

(** [ensureTable] returns, and writes neither the heap nor the random
    source. *)
Lemma ensureTable_frame ds w :
  match ensureTable ds w with
  | Done _ w' => heap w' = heap w ∧ entropy w' = entropy w
  | Panicked _ _ => False
  end.
Proof.
  unfold ensureTable, createTable. run.
  destruct (DescribeTable _ _) as [[e|] b1]; cbn; [|done].
  destruct (errorsAsResourceNotFound e); cbn; [|done].
  destruct (CreateTable _ _) as [[e2|] b2]; cbn; [done|].
  destruct (UpdateTimeToLive _ _) as [[e3|] b3]; cbn; done.
Qed.

(** [NewDdbStore] once the configuration is loaded: the defaults are put in
    a new cell, [MaxAge] is run on them, and the rest is [ensureTable]. *)
Lemma NewDdbStore_cases region tableName keyPairs w :
  NewConfig region = None ->
  NewDdbStore region tableName keyPairs w =
    let l := fresh (dom (heap w)) in
    let ds := DdbStore.mk
      (map (λ codec, if Codec.secure codec then Codec.MaxAge codec (86400 * 30) else codec)
           (CodecsFromPairs keyPairs))
      (Some l) region tableName in
    let w0 := mkWorld (<[l := sessions.mkOptions "" "" (86400 * 30) false false 0]> (heap w))
                      (clock w) (entropy w) (backend w) (trace w) in
    match ensureTable ds w0 with
    | Done None w' => Done (Some ds, None) w'
    | Done (Some err) w' => Done (None, Some err) w'
    | Panicked p w' => Panicked p w'
    end.
Proof.
  intros Hc. unfold NewDdbStore, MaxAge. rewrite Hc. run. fieldsG.
  repeat (rewrite lookup_insert_eq; fieldsG).
  rewrite insert_insert_eq.
  change (sessions.setMaxAge _ _) with (sessions.mkOptions "" "" (86400 * 30) false false 0).
  destruct (ensureTable _ _) as [[err|] w'|p w']; reflexivity.
Qed.

(** X12: [NewDdbStore] never panics and returns either a store or an
    error, never both and never neither.  A configuration that does not
    load ends it before anything is allocated or asked of the service.
    Otherwise one options cell is allocated, holding the defaults with a
    max-age of thirty days (2592000 s); a store that is returned has the
    given table name and region, that cell as its defaults, and thirty
    days as the max-age of every [*SecureCookie] codec. *)
Theorem NewDdbStore_outcome region tableName keyPairs w :
  match NewConfig region with
  | Some err => NewDdbStore region tableName keyPairs w = Done (None, Some err) w
  | None =>
      ∃ res w',
        NewDdbStore region tableName keyPairs w = Done res w' ∧
        heap w' = <[fresh (dom (heap w)) := sessions.mkOptions "" "" 2592000 false false 0]>
                    (heap w) ∧
        entropy w' = entropy w ∧
        match res with
        | (Some ds, None) =>
            DdbStore.tableName ds = tableName ∧
            DdbStore.region ds = region ∧
            DdbStore.Options ds = Some (fresh (dom (heap w))) ∧
            length (DdbStore.Codecs ds) = length (CodecsFromPairs keyPairs) ∧
            Forall (λ c, Codec.secure c = true -> Codec.maxAge c = 2592000)
                   (DdbStore.Codecs ds)
        | (None, Some _) => True
        | _ => False
        end
  end.
Proof.
  destruct (NewConfig region) as [err|] eqn:Hc.
  { unfold NewDdbStore. rewrite Hc. reflexivity. }
  rewrite (NewDdbStore_cases region tableName keyPairs w Hc). cbv zeta.
  match goal with
  | |- context [ensureTable ?ds ?w0] => pose proof (ensureTable_frame ds w0) as HF
  end.
  destruct (ensureTable _ _) as [[err|] w'|p w']; [| |done];
    destruct HF as [Hheap Hent]; eexists _, _; (split; [reflexivity|]);
    (split; [exact Hheap|]); (split; [exact Hent|]); [exact I|].
  cbn [DdbStore.tableName DdbStore.region DdbStore.Options DdbStore.Codecs].
  split; [reflexivity|]. split; [reflexivity|]. split; [reflexivity|].
  split; [apply length_map|].
  apply (setter_secure (λ c, Codec.MaxAge c (86400 * 30))); reflexivity.
Qed.

End Setters.

(** * Further properties on the in-memory service *)

(** A service without faults to come answers from its tables. *)
Lemma MemDB_step_quiet db : MemDB.faults db = [] -> MemDB.step db = (None, db).
Proof. unfold MemDB.step. intros ->. reflexivity. Qed.

Lemma MemDB_keyOf_item tbl (item : gmap string AttributeValue) id :
  MemDB.hashKey tbl = dynamodbUuidColumnName ->
  item !! dynamodbUuidColumnName = Some (AttributeValueMemberS id) ->
  MemDB.keyOf tbl item = Some id.
Proof. intros Hk Hi. unfold MemDB.keyOf. rewrite Hk, Hi. reflexivity. Qed.

Lemma MemDB_GetItem_quiet db t tbl id :
  MemDB.faults db = [] -> MemDB.tables db !! t = Some tbl ->
  MemDB.hashKey tbl = dynamodbUuidColumnName ->
  MemDB.GetItem
    (GetItemInput.mk t (<[dynamodbUuidColumnName := AttributeValueMemberS id]> ∅)) db
    = (Some (GetItemOutput.mk (MemDB.items tbl !! id)), None, db).
Proof.
  intros Hq Ht Hk. unfold MemDB.GetItem. rewrite (MemDB_step_quiet db Hq).
  cbn [GetItemInput.TableName GetItemInput.Key]. rewrite Ht.
  rewrite (MemDB_keyOf_item tbl _ id Hk (lookup_insert_eq _ _ _)). reflexivity.
Qed.

Lemma MemDB_PutItem_quiet db t tbl item id :
  MemDB.faults db = [] -> MemDB.tables db !! t = Some tbl ->
  MemDB.hashKey tbl = dynamodbUuidColumnName ->
  item !! dynamodbUuidColumnName = Some (AttributeValueMemberS id) ->
  MemDB.PutItem (PutItemInput.mk t item) db
    = (None, MemDB.setTable db t (MemDB.setItems tbl (<[id := item]> (MemDB.items tbl)))).
Proof.
  intros Hq Ht Hk Hi. unfold MemDB.PutItem. rewrite (MemDB_step_quiet db Hq).
  cbn [PutItemInput.TableName PutItemInput.Item]. rewrite Ht.
  rewrite (MemDB_keyOf_item tbl item id Hk Hi). reflexivity.
Qed.

(** The records a call leaves alone: all but the one it names. *)
Lemma MemDB_record_setItems db t tbl its t' id' :
  MemDB.tables db !! t = Some tbl ->
  (t' ≠ t ∨ its !! id' = MemDB.items tbl !! id') ->
  MemDB.record (MemDB.setTable db t (MemDB.setItems tbl its)) t' id' = MemDB.record db t' id'.
Proof.
  intros Ht Hother. unfold MemDB.record, MemDB.setTable. cbn [MemDB.tables].
  destruct (decide (t' = t)) as [->|Hne].
  - rewrite lookup_insert_eq, Ht. cbn. destruct Hother as [|Hits]; [done|exact Hits].
  - rewrite lookup_insert_ne by done. reflexivity.
Qed.

Lemma MemDB_record_step db f db' t id :
  MemDB.step db = (f, db') -> MemDB.record db' t id = MemDB.record db t id.
Proof.
  intros Hs. unfold MemDB.record. rewrite (MemDB_step_tables db f db' Hs). reflexivity.
Qed.

Lemma MemDB_PutItem_frame db t item id t' id' :
  (∀ tbl, MemDB.tables db !! t = Some tbl -> MemDB.hashKey tbl = dynamodbUuidColumnName) ->
  item !! dynamodbUuidColumnName = Some (AttributeValueMemberS id) ->
  t' ≠ t ∨ id' ≠ id ->
  MemDB.record (MemDB.PutItem (PutItemInput.mk t item) db).2 t' id' = MemDB.record db t' id'.
Proof.
  intros Hk Hi Hother. unfold MemDB.PutItem.
  destruct (MemDB.step db) as [[e|] db1] eqn:Hs; cbn [snd];
    [exact (MemDB_record_step _ _ _ _ _ Hs)|].
  cbn [PutItemInput.TableName PutItemInput.Item].
  pose proof (MemDB_step_tables _ _ _ Hs) as Ht1.
  destruct (MemDB.tables db1 !! t) as [tbl|] eqn:Ht; cbn [snd];
    [|exact (MemDB_record_step _ _ _ _ _ Hs)].
  rewrite (MemDB_keyOf_item tbl item id); [|apply Hk; congruence|exact Hi]. cbn [snd].
  rewrite (MemDB_record_setItems db1 t tbl _ t' id' Ht).
  - exact (MemDB_record_step _ _ _ _ _ Hs).
  - destruct Hother as [|Hid]; [left; done|right]. rewrite lookup_insert_ne by done. done.
Qed.

Lemma MemDB_DeleteItem_frame db t id t' id' :
  (∀ tbl, MemDB.tables db !! t = Some tbl -> MemDB.hashKey tbl = dynamodbUuidColumnName) ->
  t' ≠ t ∨ id' ≠ id ->
  MemDB.record
    (MemDB.DeleteItem
       (DeleteItemInput.mk t (<[dynamodbUuidColumnName := AttributeValueMemberS id]> ∅)) db).2
    t' id' = MemDB.record db t' id'.
Proof.
  intros Hk Hother. unfold MemDB.DeleteItem.
  destruct (MemDB.step db) as [[e|] db1] eqn:Hs; cbn [snd];
    [exact (MemDB_record_step _ _ _ _ _ Hs)|].
  cbn [DeleteItemInput.TableName DeleteItemInput.Key].
  pose proof (MemDB_step_tables _ _ _ Hs) as Ht1.
  destruct (MemDB.tables db1 !! t) as [tbl|] eqn:Ht; cbn [snd];
    [|exact (MemDB_record_step _ _ _ _ _ Hs)].
  rewrite (MemDB_keyOf_item tbl _ id); [|apply Hk; congruence|apply lookup_insert_eq].
  cbn [snd].
  rewrite (MemDB_record_setItems db1 t tbl _ t' id' Ht).
  - exact (MemDB_record_step _ _ _ _ _ Hs).
  - destruct Hother as [|Hid]; [left; done|right]. rewrite lookup_delete_ne by done. done.
Qed.

(** X13: [Save] touches one record.  In a table keyed by [uuid] (or when
    the table is missing), whatever the outcome, every record of another
    table and every record of the store's table under another identifier
    than the one the session has after the call is as it was. *)
Theorem Save_touches_one_record (st : DdbStore.t) (r : Request.t) (rw : ResponseWriter)
    (session : Session.t) (w : World MemDB.t) (l : loc) (o : sessions.Options) :
  Session.Options session = Some l -> heap w !! l = Some o ->
  (∀ tbl, MemDB.tables (backend w) !! DdbStore.tableName st = Some tbl ->
          MemDB.hashKey tbl = dynamodbUuidColumnName) ->
  ∃ session1 rw1 err1 w1,
    Save st r rw session w = Done (session1, rw1, err1) w1 ∧
    ∀ t id, t ≠ DdbStore.tableName st ∨ id ≠ Session.ID session1 ->
            MemDB.record (backend w1) t id = MemDB.record (backend w) t id.
Proof.
  intros Ho Hh Hk.
  destruct (decide (sessions.MaxAge o ≤ 0)) as [Hle|Hgt].
  - rewrite (Save_erase_cases st r rw session w l o Ho Hh Hle). cbv zeta.
    change (@DeleteItem MemDB.t memDeps) with MemDB.DeleteItem.
    destruct (MemDB.DeleteItem _ _).1 eqn:Herr;
      eexists _, _, _, _; (split; [reflexivity|]); intros t id Hother; cbn [backend];
      exact (MemDB_DeleteItem_frame (backend w) (DdbStore.tableName st)
               (Session.ID session) t id Hk Hother).
  - destruct (mint_exists session w)
      as (session1 & w1 & Hmint & Hheap & Hclock & Hback & Htrace & _).
    rewrite (Save_saving_cases st r rw session w l o session1 w1 Ho Hh ltac:(lia) Hmint).
    destruct (EncodeMulti _ _ (PValues _) _) as [err|encoded].
    { eexists _, _, _, _. split; [reflexivity|]. intros t id _. rewrite Hback. reflexivity. }
    cbv zeta. change (@PutItem MemDB.t memDeps) with MemDB.PutItem.
    destruct (MemDB.PutItem _ _).1 eqn:Herr;
      [|destruct (EncodeMulti _ _ (PString _) _)];
      eexists _, _, _, _; (split; [reflexivity|]); intros t id Hother; cbn [backend];
      exact (MemDB_PutItem_frame (backend w) (DdbStore.tableName st) _
               (Session.ID session1) t id Hk (lookup_insert_eq _ _ _) Hother).
Qed.

(** X14: the round trip.  On a service without faults whose table is keyed
    by [uuid], with codecs that decode what they encoded, a [Save] that
    succeeded has set one cookie, and [New] for a request that presents
    that cookie's value returns, without error, a session that is not new
    and has the identifier and the values that were saved, whatever the
    table held under that identifier before. *)
Theorem Save_then_New (st : DdbStore.t) (r : Request.t) (rw : ResponseWriter)
    (session : Session.t) (w : World MemDB.t) (l ls : loc) (o os : sessions.Options)
    (tbl : MemDB.Table) (session1 : Session.t) (rw1 : ResponseWriter) (w1 : World MemDB.t) :
  Session.Options session = Some l -> heap w !! l = Some o ->
  0 < sessions.MaxAge o ->
  DdbStore.Options st = Some ls -> heap w !! ls = Some os ->
  MemDB.faults (backend w) = [] ->
  MemDB.tables (backend w) !! DdbStore.tableName st = Some tbl ->
  MemDB.hashKey tbl = dynamodbUuidColumnName ->
  Save st r rw session w = Done (session1, rw1, None) w1 ->
  (∀ encoded,
      EncodeMulti (clock w) (Session.name session) (PValues (Session.Values session))
                  (DdbStore.Codecs st) = inr encoded ->
      DecodeMultiValues (clock w) (Session.name session) encoded (DdbStore.Codecs st)
        = inr (Session.Values session)) ->
  (∀ token,
      EncodeMulti (clock w) (Session.name session) (PString (Session.ID session1))
                  (DdbStore.Codecs st) = inr token ->
      DecodeMultiString (clock w) (Session.name session) token (DdbStore.Codecs st)
        = inr (Session.ID session1)) ->
  ∃ cookie,
    rw1 = rw ++ [cookie] ∧
    Cookie.Name cookie = Session.name session ∧
    ∀ r2,
      Request_Cookie r2 (Session.name session) = inr (Cookie.Value cookie) ->
      ∃ loaded w2,
        New st r2 (Session.name session) w1 = Done (loaded, None) w2 ∧
        Session.IsNew loaded = false ∧
        Session.ID loaded = Session.ID session1 ∧
        Session.Values loaded = Session.Values session.
Proof.
  intros Ho Hh Hage Hs Hhs Hq Ht Hk HS Hv Hi.
  destruct (mint_exists session w)
    as (s1 & w0 & Hmint & Hheap & Hclock & Hback & Htrace & Hname & Hvalues & _).
  rewrite (Save_saving_cases st r rw session w l o s1 w0 Ho Hh Hage Hmint) in HS.
  destruct (EncodeMulti _ _ (PValues _) _) as [err|encoded] eqn:Henc; [discriminate HS|].
  cbv zeta in HS. change (@PutItem MemDB.t memDeps) with MemDB.PutItem in HS.
  rewrite (MemDB_PutItem_quiet (backend w) (DdbStore.tableName st) tbl _ (Session.ID s1)
             Hq Ht Hk (lookup_insert_eq _ _ _)) in HS.
  cbn [fst snd] in HS.
  destruct (EncodeMulti _ _ (PString _) _) as [err|token] eqn:Htok; [discriminate HS|].
  injection HS as <- <- <-.
  destruct (NewCookie_fields (clock w) (Session.name session) token o) as (Hcn & Hcv & _).
  eexists. split; [reflexivity|]. split; [exact Hcn|].
  rewrite Hcv. intros r2 Hc.
  specialize (Hv encoded eq_refl). specialize (Hi token Htok).
  rewrite (New_decoded st r2 (Session.name session) _ ls os token (Session.ID s1) Hs);
    [|exact Hhs|exact Hc|exact Hi].
  fieldsG.
  match goal with
  | |- context [load st ?sess ?w1] =>
      pose proof (load_cases st sess w1) as Hl; fields Hl
  end.
  change (@GetItem MemDB.t memDeps) with MemDB.GetItem in Hl.
  match type of Hl with
  | context [MemDB.GetItem _ (MemDB.setTable ?db ?t ?tb)] =>
      rewrite (MemDB_GetItem_quiet (MemDB.setTable db t tb) t tb (Session.ID s1)) in Hl;
        [|exact Hq|apply lookup_insert_eq|exact Hk]
  end.
  cbn [GetItemOutput.Item MemDB.setItems MemDB.items] in Hl.
  rewrite lookup_insert_eq in Hl.
  rewrite !lookup_insert_ne in Hl by done. rewrite lookup_insert_eq in Hl.
  rewrite Hv in Hl. rewrite Hl.
  eexists _, _. split; [reflexivity|]. cbn. repeat split.
  apply (right_id_L ∅ (∪)).
Qed.

(** [ensureTable] against a service with no fault to come. *)
Lemma ensureTable_quiet (ds : DdbStore.t) (w : World MemDB.t) :
  MemDB.faults (backend w) = [] ->
  ensureTable ds w =
    match MemDB.tables (backend w) !! DdbStore.tableName ds with
    | Some _ =>
        Done None
          (mkWorld (heap w) (clock w) (entropy w) (backend w)
             (trace w ++ [EvDescribeTable (DescribeTableInput.mk (DdbStore.tableName ds))]))
    | None =>
        Done None
          (mkWorld (heap w) (clock w + 10 * Second) (entropy w)
             (MemDB.mk
                (<[DdbStore.tableName ds :=
                     MemDB.mkTable "uuid" BillingModePayPerRequest (Some "expiration") ∅]>
                   (MemDB.tables (backend w))) [])
             (trace w ++
              [EvDescribeTable (DescribeTableInput.mk (DdbStore.tableName ds));
               EvCreateTable (CreateTableInput.mk (DdbStore.tableName ds)
                 [AttributeDefinition.mk "uuid" ScalarAttributeTypeS]
                 [KeySchemaElement.mk "uuid" KeyTypeHash]
                 BillingModePayPerRequest);
               EvSleep (10 * Second);
               EvUpdateTimeToLive (UpdateTimeToLiveInput.mk (DdbStore.tableName ds)
                 (TimeToLiveSpecification.mk true "expiration"))]))
    end.
Proof.
  destruct w as [h c e [tables faults] tr]. cbn [backend MemDB.faults MemDB.tables].
  intros ->. unfold ensureTable, createTable. run.
  cbn [backend DescribeTable CreateTable UpdateTimeToLive memDeps].
  unfold MemDB.DescribeTable, MemDB.step.
  cbn [MemDB.faults MemDB.tables DescribeTableInput.TableName].
  destruct (tables !! DdbStore.tableName ds) as [tbl|] eqn:Ht; [reflexivity|].
  cbn [errorsAsResourceNotFound MemDB.notFound heap clock entropy backend trace].
  unfold MemDB.CreateTable, MemDB.step.
  cbn [MemDB.faults MemDB.tables CreateTableInput.TableName CreateTableInput.KeySchema
       CreateTableInput.BillingMode].
  rewrite Ht. cbn [heap clock entropy backend trace Sleep].
  unfold MemDB.UpdateTimeToLive, MemDB.step, MemDB.setTable.
  cbn [MemDB.faults MemDB.tables UpdateTimeToLiveInput.TableName
       UpdateTimeToLiveInput.TimeToLiveSpecification
       TimeToLiveSpecification.Enabled TimeToLiveSpecification.AttributeName
       MemDB.hashKey MemDB.billing MemDB.items].
  rewrite lookup_insert_eq.
  cbn [heap clock entropy backend trace MemDB.hashKey MemDB.billing MemDB.items
       MemDB.tables MemDB.faults].
  rewrite insert_insert_eq. rewrite <- !app_assoc. reflexivity.
Qed.

(** The in-memory deployment always has a configuration. *)
Lemma memDeps_NewConfig (region : string) : NewConfig (B := MemDB.t) region = None.
Proof. reflexivity. Qed.

(** X15: provisioning is idempotent.  Against a service that does not
    fail, construction succeeds whether the table exists or not: an
    existing table is only described and left as it is, a missing one is
    created, keyed by the string [uuid] with pay-per-request billing and
    time-to-live on [expiration].  A second construction then only
    describes the table: the service is as the first left it, and the
    store it returns has the same table and codecs. *)
Theorem NewDdbStore_twice (region tableName : string) (keyPairs : list (list Byte.byte))
    (w : World MemDB.t) :
  MemDB.faults (backend w) = [] ->
  ∃ ds1 w1 ds2 w2,
    NewDdbStore region tableName keyPairs w = Done (Some ds1, None) w1 ∧
    match MemDB.tables (backend w) !! tableName with
    | Some _ =>
        backend w1 = backend w ∧
        trace w1 = trace w ++ [EvDescribeTable (DescribeTableInput.mk tableName)]
    | None =>
        MemDB.tables (backend w1) =
          <[tableName := MemDB.mkTable "uuid" BillingModePayPerRequest (Some "expiration") ∅]>
            (MemDB.tables (backend w)) ∧
        length (trace w1) = (length (trace w) + 4)%nat
    end ∧
    NewDdbStore region tableName keyPairs w1 = Done (Some ds2, None) w2 ∧
    backend w2 = backend w1 ∧
    trace w2 = trace w1 ++ [EvDescribeTable (DescribeTableInput.mk tableName)] ∧
    DdbStore.tableName ds2 = DdbStore.tableName ds1 ∧
    DdbStore.Codecs ds2 = DdbStore.Codecs ds1.
Proof.
  intros Hq.
  rewrite (NewDdbStore_cases region tableName keyPairs w (memDeps_NewConfig region)). cbv zeta.
  rewrite ensureTable_quiet by exact Hq.
  cbn [backend heap clock entropy trace DdbStore.tableName].
  destruct (MemDB.tables (backend w) !! tableName) as [tbl|] eqn:Ht.
  - eexists _, _, _, _. split; [reflexivity|]. cbn [backend trace].
    split; [split; reflexivity|].
    rewrite (NewDdbStore_cases region tableName keyPairs _ (memDeps_NewConfig region)). cbv zeta.
    rewrite ensureTable_quiet by exact Hq.
    cbn [backend heap clock entropy trace DdbStore.tableName]. rewrite Ht.
    repeat split.
  - eexists _, _, _, _. split; [reflexivity|]. cbn [backend trace MemDB.tables].
    split; [split; [reflexivity|rewrite length_app; reflexivity]|].
    rewrite (NewDdbStore_cases region tableName keyPairs _ (memDeps_NewConfig region)). cbv zeta.
    rewrite ensureTable_quiet by reflexivity.
    cbn [backend heap clock entropy trace DdbStore.tableName MemDB.tables].
    rewrite lookup_insert_eq. repeat split.
Qed.

(** X16: no rollback, and no second try.  When the table is missing and
    the time-to-live call fails after the table has been created,
    construction ends with that error and leaves the table behind without
    time-to-live.  The next construction finds the table, succeeds after
    the describe alone, and never enables time-to-live: records in that
    table do not expire. *)
Theorem NewDdbStore_ttl_failure (region tableName : string)
    (keyPairs : list (list Byte.byte)) (w : World MemDB.t) (err : error) :
  MemDB.tables (backend w) !! tableName = None ->
  MemDB.faults (backend w) = [None; None; Some err] ->
  ∃ w1 ds w2,
    NewDdbStore region tableName keyPairs w = Done (None, Some err) w1 ∧
    MemDB.tables (backend w1) !! tableName
      = Some (MemDB.mkTable "uuid" BillingModePayPerRequest None ∅) ∧
    NewDdbStore region tableName keyPairs w1 = Done (Some ds, None) w2 ∧
    MemDB.tables (backend w2) !! tableName
      = Some (MemDB.mkTable "uuid" BillingModePayPerRequest None ∅) ∧
    trace w2 = trace w1 ++ [EvDescribeTable (DescribeTableInput.mk tableName)].
Proof.
  intros Ht Hq.
  rewrite (NewDdbStore_cases region tableName keyPairs w (memDeps_NewConfig region)). cbv zeta.
  destruct w as [h c e [tables faults] tr]. cbn [backend MemDB.faults MemDB.tables] in *.
  subst faults.
  unfold ensureTable at 1, createTable. run.
  cbn [backend DescribeTable CreateTable UpdateTimeToLive memDeps].
  unfold MemDB.DescribeTable, MemDB.step.
  cbn [MemDB.faults MemDB.tables DescribeTableInput.TableName DdbStore.tableName].
  rewrite Ht.
  cbn [errorsAsResourceNotFound MemDB.notFound heap clock entropy backend trace].
  unfold MemDB.CreateTable, MemDB.step.
  cbn [MemDB.faults MemDB.tables CreateTableInput.TableName CreateTableInput.KeySchema
       CreateTableInput.BillingMode].
  rewrite Ht. cbn [heap clock entropy backend trace Sleep].
  unfold MemDB.UpdateTimeToLive, MemDB.step, MemDB.setTable.
  cbn [MemDB.faults MemDB.tables heap clock entropy backend trace].
  eexists _, _, _. split; [reflexivity|].
  cbn [backend MemDB.tables]. split; [apply lookup_insert_eq|].
  rewrite (NewDdbStore_cases region tableName keyPairs _ (memDeps_NewConfig region)). cbv zeta.
  rewrite ensureTable_quiet by reflexivity.
  cbn [backend heap clock entropy trace DdbStore.tableName MemDB.tables].
  rewrite lookup_insert_eq. split; [reflexivity|].
  cbn [backend trace MemDB.tables]. split; [apply lookup_insert_eq|reflexivity].
Qed.

Lemma MemDB_DeleteItem_quiet db t tbl id :
  MemDB.faults db = [] -> MemDB.tables db !! t = Some tbl ->
  MemDB.hashKey tbl = dynamodbUuidColumnName ->
  MemDB.DeleteItem
    (DeleteItemInput.mk t (<[dynamodbUuidColumnName := AttributeValueMemberS id]> ∅)) db
    = (None, MemDB.setTable db t (MemDB.setItems tbl (delete id (MemDB.items tbl)))).
Proof.
  intros Hq Ht Hk. unfold MemDB.DeleteItem. rewrite (MemDB_step_quiet db Hq).
  cbn [DeleteItemInput.TableName DeleteItemInput.Key]. rewrite Ht.
  rewrite (MemDB_keyOf_item tbl _ id Hk (lookup_insert_eq _ _ _)). reflexivity.
Qed.

(** X17: a deleted session does not come back.  On a service without
    faults whose table is keyed by [uuid], [Save] with max-age zero or
    negative returns no error, and a later [New] for a request whose
    cookie still decodes to the session's identifier returns, without
    error, a session with that identifier and no values. *)
Theorem Save_erase_then_New (st : DdbStore.t) (r : Request.t) (rw : ResponseWriter)
    (session : Session.t) (w : World MemDB.t) (l ls : loc) (o os : sessions.Options)
    (tbl : MemDB.Table) :
  Session.Options session = Some l -> heap w !! l = Some o ->
  sessions.MaxAge o ≤ 0 ->
  DdbStore.Options st = Some ls -> heap w !! ls = Some os ->
  MemDB.faults (backend w) = [] ->
  MemDB.tables (backend w) !! DdbStore.tableName st = Some tbl ->
  MemDB.hashKey tbl = dynamodbUuidColumnName ->
  ∃ rw1 w1,
    Save st r rw session w = Done (session, rw1, None) w1 ∧
    MemDB.record (backend w1) (DdbStore.tableName st) (Session.ID session) = None ∧
    ∀ r2 name c,
      Request_Cookie r2 name = inr c ->
      DecodeMultiString (clock w) name c (DdbStore.Codecs st) = inr (Session.ID session) ->
      ∃ loaded w2,
        New st r2 name w1 = Done (loaded, None) w2 ∧
        Session.ID loaded = Session.ID session ∧
        Session.Values loaded = ∅.
Proof.
  intros Ho Hh Hage Hs Hhs Hq Ht Hk.
  rewrite (Save_erase_cases st r rw session w l o Ho Hh Hage). cbv zeta.
  change (@DeleteItem MemDB.t memDeps) with MemDB.DeleteItem.
  rewrite (MemDB_DeleteItem_quiet (backend w) (DdbStore.tableName st) tbl
             (Session.ID session) Hq Ht Hk).
  cbn [fst snd]. eexists _, _. split; [reflexivity|]. cbn [backend]. split.
  { unfold MemDB.record, MemDB.setTable. cbn [MemDB.tables].
    rewrite lookup_insert_eq. cbn. apply lookup_delete_eq. }
  intros r2 name c Hc Hd.
  rewrite (New_decoded st r2 name _ ls os c (Session.ID session) Hs);
    [|exact Hhs|exact Hc|exact Hd].
  fieldsG.
  match goal with
  | |- context [load st ?sess ?w1] =>
      pose proof (load_cases st sess w1) as Hl; fields Hl
  end.
  change (@GetItem MemDB.t memDeps) with MemDB.GetItem in Hl.
  match type of Hl with
  | context [MemDB.GetItem _ (MemDB.setTable ?db ?t ?tb)] =>
      rewrite (MemDB_GetItem_quiet (MemDB.setTable db t tb) t tb (Session.ID session)) in Hl;
        [|exact Hq|apply lookup_insert_eq|exact Hk]
  end.
  cbn [GetItemOutput.Item MemDB.setItems MemDB.items] in Hl.
  rewrite lookup_delete_eq in Hl. rewrite Hl.
  eexists _, _. split; [reflexivity|]. split; reflexivity.
Qed.

(** ** The further properties at concrete inputs *)

Lemma New_without_cookie_witness :
  ∃ session w',
    New Fixtures.store (Request.mk [("other", "x")]) "sid"
        (Fixtures.world (Fixtures.service ∅)) = Done (session, None) w' ∧
    Session.IsNew session = true.
Proof.
  assert (∀ v, ("sid", v) ∉ Request.Cookies (Request.mk [("other", "x")])) as Hnot.
  { intros v Hin. cbn in Hin. apply list_elem_of_singleton in Hin. discriminate Hin. }
  destruct (New_without_cookie Fixtures.store (Request.mk [("other", "x")]) "sid"
              (Fixtures.world (Fixtures.service ∅)) 1%positive Fixtures.defaults
              ltac:(vm_compute; reflexivity) ltac:(vm_compute; reflexivity) Hnot) as (session & w' & l & HN & -> & _).
  eexists _, w'. split; [exact HN|reflexivity].
Defined.

Lemma New_loaded_witness :
  ∃ session w',
    New Fixtures.store (Fixtures.requestFor "sid" "ABC") "sid"
        (Fixtures.world (Fixtures.service (<["ABC" := Fixtures.helloRecord]> ∅)))
      = Done (session, None) w' ∧
    Session.IsNew session = false ∧
    Session.ID session = "ABC" ∧
    Session.Values session = <["hello" := "world"]> ∅.
Proof.
  destruct (New_loaded Fixtures.store (Fixtures.requestFor "sid" "ABC") "sid"
              (Fixtures.world (Fixtures.service (<["ABC" := Fixtures.helloRecord]> ∅)))
              1%positive Fixtures.defaults "k1:sid:ABC" "ABC" Fixtures.helloRecord
              (Fixtures.service (<["ABC" := Fixtures.helloRecord]> ∅))
              "k1:sid:hello=world;" (<["hello" := "world"]> ∅)
              ltac:(vm_compute; reflexivity) ltac:(vm_compute; reflexivity) ltac:(vm_compute; reflexivity) ltac:(vm_compute; reflexivity) ltac:(vm_compute; reflexivity) ltac:(vm_compute; reflexivity) ltac:(vm_compute; reflexivity))
    as (session & w' & HN & Hnew & Hid & Hval & _).
  exists session, w'. repeat split; assumption.
Defined.

Lemma New_payload_undecodable_witness :
  ∃ session w',
    New Fixtures.store (Fixtures.requestFor "sid" "ABC") "sid"
        (Fixtures.world (Fixtures.service
           (<["ABC" := <["uuid" := AttributeValueMemberS "ABC"]>
                        (<["data" := AttributeValueMemberS "garbled"]> ∅)]> ∅)))
      = Done (session, Some (MultiError [PlainCodec.errNotValid])) w' ∧
    Session.IsNew session = true ∧
    Session.ID session = "ABC" ∧
    Session.Values session = ∅.
Proof.
  exact (New_payload_undecodable Fixtures.store (Fixtures.requestFor "sid" "ABC") "sid"
           (Fixtures.world (Fixtures.service
              (<["ABC" := <["uuid" := AttributeValueMemberS "ABC"]>
                           (<["data" := AttributeValueMemberS "garbled"]> ∅)]> ∅)))
           1%positive Fixtures.defaults "k1:sid:ABC" "ABC"
           (<["uuid" := AttributeValueMemberS "ABC"]>
            (<["data" := AttributeValueMemberS "garbled"]> ∅))
           (Fixtures.service
              (<["ABC" := <["uuid" := AttributeValueMemberS "ABC"]>
                           (<["data" := AttributeValueMemberS "garbled"]> ∅)]> ∅))
           "garbled" (MultiError [PlainCodec.errNotValid])
           ltac:(vm_compute; reflexivity) ltac:(vm_compute; reflexivity) ltac:(vm_compute; reflexivity) ltac:(vm_compute; reflexivity) ltac:(vm_compute; reflexivity) ltac:(vm_compute; reflexivity) ltac:(vm_compute; reflexivity)).
Defined.

Lemma Save_saving_path_witness :
  ∃ session1 input (w' : World MemDB.t),
    session1 = Fixtures.hello ∧
    PutItemInput.Item input !! dynamodbDataColumnName
      = Some (AttributeValueMemberS "k1:sid:hello=world;") ∧
    trace w' = [] ++ [EvPutItem input].
Proof.
  assert (0 < sessions.MaxAge Fixtures.defaults) as Hage by (vm_compute; reflexivity).
  assert (EncodeMulti (clock (Fixtures.world (Fixtures.service ∅)))
            (Session.name Fixtures.hello) (PValues (Session.Values Fixtures.hello))
            (DdbStore.Codecs Fixtures.store) = inr "k1:sid:hello=world;") as Henc
    by (vm_compute; reflexivity).
  destruct (Save_saving_path Fixtures.store (Request.mk []) [] Fixtures.hello
              (Fixtures.world (Fixtures.service ∅)) 2%positive Fixtures.defaults
              "k1:sid:hello=world;" eq_refl eq_refl Hage Henc)
    as (session1 & input & w' & Hkeep & _ & _ & _ & Hdata & Htrace & _).
  exists session1, input, w'. split; [apply Hkeep; discriminate|].
  split; [exact Hdata|exact Htrace].
Defined.

Lemma Save_erase_ignores_codecs_witness :
  ∃ rw1 err w',
    Save Fixtures.store (Request.mk []) [] Fixtures.leaving
         (Fixtures.world (Fixtures.service ∅)) = Done (Fixtures.leaving, rw1, err) w' ∧
    Save (DdbStore.setCodecs Fixtures.store []) (Request.mk []) []
         (Session.setValues Fixtures.leaving ∅) (Fixtures.world (Fixtures.service ∅))
      = Done (Session.setValues Fixtures.leaving ∅, rw1, err) w'.
Proof.
  assert (sessions.MaxAge Fixtures.expired ≤ 0) as Hage by (vm_compute; discriminate).
  destruct (Save_erase_ignores_codecs Fixtures.store (Request.mk []) [] Fixtures.leaving
              (Fixtures.world (Fixtures.service ∅)) 3%positive Fixtures.expired [] ∅
              ltac:(vm_compute; reflexivity) ltac:(vm_compute; reflexivity) Hage) as (rw1 & err & w' & H1 & H2 & _).
  exists rw1, err, w'. split; assumption.
Defined.

Lemma Save_minted_identifier_witness :
  ∃ session1 rw1 err1 w1,
    Save Fixtures.store (Request.mk []) [] Fixtures.unsaved
         (Fixtures.world (Fixtures.service ∅)) = Done (session1, rw1, err1) w1 ∧
    Session.ID session1 = "GAYTEMZUGU3DOOBZMFRGGZDFMYYDCMRTGQ2TMNZYHFQWEY3EMVTA" ∧
    String.length (Session.ID session1) = 52%nat.
Proof.
  assert (0 < sessions.MaxAge Fixtures.defaults) as Hage by (vm_compute; reflexivity).
  destruct (Save_minted_identifier Fixtures.store (Request.mk []) [] Fixtures.unsaved
              (Fixtures.world (Fixtures.service ∅)) 2%positive Fixtures.defaults
              (map byte_of_ascii (list_ascii_of_string "0123456789abcdef0123456789abcdef"))
              [] ltac:(vm_compute; reflexivity) ltac:(vm_compute; reflexivity) Hage ltac:(vm_compute; reflexivity) ltac:(vm_compute; reflexivity) ltac:(vm_compute; reflexivity))
    as (session1 & rw1 & err1 & w1 & HS & Hid & Hlen & _).
  exists session1, rw1, err1, w1. split; [exact HS|]. split; [|exact Hlen].
  rewrite Hid. vm_compute. reflexivity.
Defined.

Lemma Save_random_failure_witness :
  ∃ session1 rw1 err1 w1 input,
    Save Fixtures.store (Request.mk []) [] Fixtures.unsaved
         (mkWorld (heap (Fixtures.world (Fixtures.service ∅))) 1700000000123456789 []
                  (Fixtures.service ∅) [])
      = Done (session1, rw1, err1) w1 ∧
    Session.ID session1 = "" ∧
    PutItemInput.Item input !! dynamodbUuidColumnName = Some (AttributeValueMemberS "") ∧
    trace w1 = [] ++ [EvPutItem input].
Proof.
  assert (0 < sessions.MaxAge Fixtures.defaults) as Hage by (vm_compute; reflexivity).
  assert (∀ key : list Byte.byte,
            head (entropy (mkWorld (heap (Fixtures.world (Fixtures.service ∅)))
                             1700000000123456789 [] (Fixtures.service ∅) [])) = Some key ->
            length key ≠ 32%nat) as Hfail by (intros key Hk; discriminate Hk).
  exact (Save_random_failure Fixtures.store (Request.mk []) [] Fixtures.unsaved
           (mkWorld (heap (Fixtures.world (Fixtures.service ∅))) 1700000000123456789 []
                    (Fixtures.service ∅) [])
           2%positive Fixtures.defaults "k1:sid:" ltac:(vm_compute; reflexivity) ltac:(vm_compute; reflexivity) Hage ltac:(vm_compute; reflexivity) Hfail ltac:(vm_compute; reflexivity)).
Defined.

Lemma MaxAge_then_New_witness :
  ∃ s1 w1,
    MaxAge Fixtures.store 3600 (Fixtures.world (Fixtures.service ∅)) = Done s1 w1 ∧
    heap w1 !! 1%positive = Some (sessions.setMaxAge Fixtures.defaults 3600).
Proof.
  destruct (MaxAge_then_New Fixtures.store 3600 (Fixtures.world (Fixtures.service ∅))
              1%positive Fixtures.defaults ltac:(vm_compute; reflexivity) ltac:(vm_compute; reflexivity))
    as (s1 & w1 & HM & Hheap & _).
  exists s1, w1. split; [exact HM|]. rewrite Hheap. apply lookup_insert_eq.
Defined.

Lemma Save_touches_one_record_witness :
  ∃ session1 rw1 err1 w1,
    Save Fixtures.store (Request.mk []) [] Fixtures.unsaved
         (Fixtures.world (Fixtures.service (<["ABC" := Fixtures.helloRecord]> ∅)))
      = Done (session1, rw1, err1) w1 ∧
    MemDB.record (backend w1) "archive" "ABC" = None.
Proof.
  assert (∀ tbl,
            MemDB.tables (backend (Fixtures.world
              (Fixtures.service (<["ABC" := Fixtures.helloRecord]> ∅))))
              !! DdbStore.tableName Fixtures.store = Some tbl ->
            MemDB.hashKey tbl = dynamodbUuidColumnName) as Hk.
  { intros tbl Ht. vm_compute in Ht. injection Ht as <-. reflexivity. }
  destruct (Save_touches_one_record Fixtures.store (Request.mk []) [] Fixtures.unsaved
              (Fixtures.world (Fixtures.service (<["ABC" := Fixtures.helloRecord]> ∅)))
              2%positive Fixtures.defaults eq_refl eq_refl Hk)
    as (session1 & rw1 & err1 & w1 & HS & Hframe).
  exists session1, rw1, err1, w1. split; [exact HS|].
  rewrite (Hframe "archive" "ABC"); [reflexivity|left; discriminate].
Defined.

Lemma Save_then_New_witness :
  ∃ session1 rw1 w1,
    Save Fixtures.store (Request.mk []) [] Fixtures.hello
         (Fixtures.world (Fixtures.service ∅)) = Done (session1, rw1, None) w1 ∧
    ∃ cookie,
      rw1 = [] ++ [cookie] ∧
      Cookie.Name cookie = "sid" ∧
      ∀ r2,
        Request_Cookie r2 "sid" = inr (Cookie.Value cookie) ->
        ∃ loaded w2,
          New Fixtures.store r2 "sid" w1 = Done (loaded, None) w2 ∧
          Session.IsNew loaded = false ∧
          Session.ID loaded = Session.ID session1 ∧
          Session.Values loaded = Session.Values Fixtures.hello.
Proof.
  eexists _, _, _. split; [vm_compute; reflexivity|].
  eapply (Save_then_New Fixtures.store (Request.mk []) [] Fixtures.hello
            (Fixtures.world (Fixtures.service ∅)) 2%positive 1%positive
            Fixtures.defaults Fixtures.defaults
            (MemDB.setItems Fixtures.emptyTable ∅));
    try (vm_compute; reflexivity).
  - intros encoded Henc. vm_compute in Henc. injection Henc as <-. vm_compute. reflexivity.
  - intros token Htok. vm_compute in Htok. injection Htok as <-. vm_compute. reflexivity.
Defined.

Lemma NewDdbStore_twice_witness :
  ∃ ds1 w1 ds2 w2,
    NewDdbStore "us-east-2" "sessions" [] (Fixtures.world (MemDB.mk ∅ []))
      = Done (Some ds1, None) w1 ∧
    NewDdbStore "us-east-2" "sessions" [] w1 = Done (Some ds2, None) w2 ∧
    backend w2 = backend w1.
Proof.
  destruct (NewDdbStore_twice "us-east-2" "sessions" []
              (Fixtures.world (MemDB.mk ∅ [])) ltac:(vm_compute; reflexivity))
    as (ds1 & w1 & ds2 & w2 & H1 & _ & H2 & Hb & _).
  exists ds1, w1, ds2, w2. repeat split; assumption.
Defined.

Lemma NewDdbStore_ttl_failure_witness :
  ∃ w1 ds w2,
    NewDdbStore "us-east-2" "sessions" []
      (Fixtures.world (MemDB.mk ∅ [None; None; Some Fixtures.throttled]))
      = Done (None, Some Fixtures.throttled) w1 ∧
    NewDdbStore "us-east-2" "sessions" [] w1 = Done (Some ds, None) w2 ∧
    MemDB.ttlAttribute <$> MemDB.tables (backend w2) !! "sessions" = Some None.
Proof.
  assert (MemDB.tables (backend (Fixtures.world
            (MemDB.mk ∅ [None; None; Some Fixtures.throttled]))) !! "sessions" = None)
    as Hnone by (vm_compute; reflexivity).
  destruct (NewDdbStore_ttl_failure "us-east-2" "sessions" []
              (Fixtures.world (MemDB.mk ∅ [None; None; Some Fixtures.throttled]))
              Fixtures.throttled Hnone eq_refl)
    as (w1 & ds & w2 & H1 & _ & H2 & Ht & _).
  exists w1, ds, w2. split; [exact H1|]. split; [exact H2|]. rewrite Ht. reflexivity.
Defined.

Lemma Save_erase_then_New_witness :
  ∃ rw1 w1,
    Save Fixtures.store (Request.mk []) [] Fixtures.leaving
         (Fixtures.world (Fixtures.service (<["ABC" := Fixtures.helloRecord]> ∅)))
      = Done (Fixtures.leaving, rw1, None) w1 ∧
    ∃ loaded w2,
      New Fixtures.store (Fixtures.requestFor "sid" "ABC") "sid" w1
        = Done (loaded, None) w2 ∧
      Session.Values loaded = ∅.
Proof.
  assert (sessions.MaxAge Fixtures.expired ≤ 0) as Hage by (vm_compute; discriminate).
  destruct (Save_erase_then_New Fixtures.store (Request.mk []) [] Fixtures.leaving
              (Fixtures.world (Fixtures.service (<["ABC" := Fixtures.helloRecord]> ∅)))
              3%positive 1%positive Fixtures.expired Fixtures.defaults
              (MemDB.setItems Fixtures.emptyTable (<["ABC" := Fixtures.helloRecord]> ∅))
              eq_refl eq_refl Hage eq_refl eq_refl eq_refl eq_refl eq_refl)
    as (rw1 & w1 & HS & _ & HN).
  exists rw1, w1. split; [exact HS|].
  destruct (HN (Fixtures.requestFor "sid" "ABC") "sid" "k1:sid:ABC" eq_refl
               ltac:(vm_compute; reflexivity))
    as (loaded & w2 & HN2 & _ & Hval).
  exists loaded, w2. split; assumption.
Defined.
